(** * swiftly.cli.cli: the command-line front controller

    A shallow embedding of [swiftly/cli/cli.py] (class [CLI]): the
    resolution of the main options from the command line, the process
    environment and the configuration file, the choice of the client
    backend, and the dispatch of the command with its error handling.

    Python objects whose attributes are read and written by name
    ([options], [os.environ], [self.context.conf], [self.commands]) are
    finite maps keyed by strings.  Code that can raise is written in a
    small state-and-exception monad over the [CLI] object. *)

From Stdlib Require Import ZArith Ascii String List.
From stdpp Require Import base option strings gmap list fin_maps.

Local Open Scope string_scope.
Local Open Scope Z_scope.

(** ** Python values *)

(** The values an option attribute, or an attribute probed on an
    exception, can hold. *)
Inductive pyval : Type :=
| VNone
| VBool (b : bool)
| VInt (z : Z)
| VStr (s : string).

#[global] Instance pyval_eq_dec : EqDecision pyval.
Proof. solve_decision. Defined.

(** [x is None] *)
Definition is_None (v : pyval) : bool :=
  match v with VNone => true | _ => false end.

(** [isinstance(x, basestring)] *)
Definition is_basestring (v : pyval) : bool :=
  match v with VStr _ => true | _ => false end.

(** Truth value testing: [if x:], [not x]. *)
Definition truthy (v : pyval) : bool :=
  match v with
  | VNone => false
  | VBool b => b
  | VInt z => negb (z =? 0)
  | VStr s => negb (String.eqb s "")
  end.

(** ** Strings *)

Module Str.

Definition is_lower (c : ascii) : bool :=
  ((97 <=? nat_of_ascii c) && (nat_of_ascii c <=? 122))%nat.

Definition is_upper (c : ascii) : bool :=
  ((65 <=? nat_of_ascii c) && (nat_of_ascii c <=? 90))%nat.

Definition upper_char (c : ascii) : ascii :=
  if is_lower c then ascii_of_nat (nat_of_ascii c - 32) else c.

Definition lower_char (c : ascii) : ascii :=
  if is_upper c then ascii_of_nat (nat_of_ascii c + 32) else c.

Fixpoint map_chars (f : ascii -> ascii) (s : string) : string :=
  match s with
  | EmptyString => EmptyString
  | String c r => String (f c) (map_chars f r)
  end.

(** [s.upper()] and [s.lower()] on byte strings. *)
Definition upper : string -> string := map_chars upper_char.
Definition lower : string -> string := map_chars lower_char.

(** [s.startswith(p)] *)
Definition startswith (s p : string) : bool := String.prefix p s.

(** [s.endswith(p)] *)
Definition endswith (s p : string) : bool :=
  String.eqb (String.substring (String.length s - String.length p) (String.length p) s) p
  && (String.length p <=? String.length s)%nat.

(** [s[n:]] *)
Fixpoint slice_from (n : nat) (s : string) : string :=
  match n, s with
  | O, _ => s
  | S _, EmptyString => EmptyString
  | S k, String _ r => slice_from k r
  end.

(** Characters [int()] skips around a literal. *)
Definition is_space (c : ascii) : bool :=
  let n := nat_of_ascii c in
  ((n =? 32) || ((9 <=? n) && (n <=? 13)))%nat.

Definition digit_of (c : ascii) : option Z :=
  let n := nat_of_ascii c in
  if ((48 <=? n) && (n <=? 57))%nat then Some (Z.of_nat (n - 48)) else None.

Fixpoint lstrip (s : string) : string :=
  match s with
  | String c r => if is_space c then lstrip r else s
  | EmptyString => s
  end.

(** Reads the decimal digits of [s] after the accumulator [acc];
    trailing white space is allowed once at least one digit was read
    ([seen]). *)
Fixpoint digits (seen : bool) (acc : Z) (s : string) : option Z :=
  match s with
  | EmptyString => if seen then Some acc else None
  | String c r =>
      match digit_of c with
      | Some d => digits true (10 * acc + d) r
      | None =>
          if seen && String.eqb (lstrip s) "" then Some acc else None
      end
  end.

(** [int(s)] for a string: optional surrounding white space, an
    optional sign, one or more decimal digits.  [None] stands for the
    [ValueError] of a malformed literal. *)
Definition to_int (s : string) : option Z :=
  match lstrip s with
  | String "-" r => Z.opp <$> digits false 0 r
  | String "+" r => digits false 0 r
  | r => digits false 0 r
  end.

End Str.

(** [repr(s)] of a byte string, for the [%r] conversion. *)
Module Repr.

Definition squote : ascii := ascii_of_nat 39.
Definition dquote : ascii := ascii_of_nat 34.
Definition backslash : ascii := ascii_of_nat 92.

Definition hex_digit (n : nat) : ascii :=
  (if n <? 10 then ascii_of_nat (48 + n) else ascii_of_nat (87 + n))%nat.

Fixpoint contains (c : ascii) (s : string) : bool :=
  match s with
  | EmptyString => false
  | String d r => Ascii.eqb c d || contains c r
  end.

Definition escape (quote c : ascii) : string :=
  let n := nat_of_ascii c in
  if Ascii.eqb c quote || Ascii.eqb c backslash then String backslash (String c EmptyString)
  else if (n =? 9)%nat then String backslash "t"
  else if (n =? 10)%nat then String backslash "n"
  else if (n =? 13)%nat then String backslash "r"
  else if ((n <? 32) || (127 <=? n))%nat then
    String backslash (String "x" (String (hex_digit (n / 16))
      (String (hex_digit (n mod 16)) EmptyString)))
  else String c EmptyString.

Fixpoint escape_all (quote : ascii) (s : string) : string :=
  match s with
  | EmptyString => EmptyString
  | String c r => escape quote c ++ escape_all quote r
  end.

Definition repr (s : string) : string :=
  let quote :=
    if contains squote s && negb (contains dquote s) then dquote else squote in
  String quote (escape_all quote s ++ String quote EmptyString).

End Repr.

(** ** Dictionaries and attribute access *)

(** [optparse.Values]: one attribute per declared [dest], [None] when
    the option was not supplied.  An attribute that is not in the map
    reads as [None]. *)
Abbreviation Values := (gmap string pyval).

Definition getattr (o : Values) (name : string) : pyval :=
  default VNone (o !! name).

Definition setattr (o : Values) (name : string) (v : pyval) : Values :=
  <[name := v]> o.

(** [d.get(k, dflt)] on a dictionary of strings. *)
Definition dict_get (d : gmap string string) (k : string) (dflt : pyval) : pyval :=
  match d !! k with
  | Some s => VStr s
  | None => dflt
  end.

(** [TRUE_VALUES] *)
Definition TRUE_VALUES : list string :=
  ["1"; "on"; "t"; "true"; "y"; "yes"].

(** [x in TRUE_VALUES] *)
Definition in_TRUE_VALUES (s : string) : bool :=
  existsb (String.eqb s) TRUE_VALUES.

(** ** The world outside the program *)

(** What [SafeConfigParser] makes of the file at a path.  [read] skips
    a file it cannot open, which leaves no section; it raises a
    [ConfigParserError] on text it cannot parse.  [items(section)]
    gives the pairs of a section and raises a [ConfigParserError] when
    a value cannot be interpolated ([None]). *)
Inductive ConfFile : Type :=
| ConfUnparsable
| ConfSections (sections : list (string * option (list (string * string)))).

(** [import eventlet.green.subprocess] or [import subprocess]. *)
Inductive SubprocessModule : Type :=
| eventlet_green_subprocess
| subprocess.

Record OS : Type := mkOS {
  environ : gmap string string;          (* os.environ *)
  argv : list string;                    (* sys.argv[1:] *)
  expanduser : string -> string;         (* os.path.expanduser *)
  files : string -> ConfFile;            (* the file system, as the parser sees it *)
  gettempdir : string;                   (* tempfile.gettempdir() *)
  eventlet_version : option string;      (* eventlet.__version__; None: ImportError *)
  has_green_subprocess : bool            (* eventlet.green.subprocess imports *)
}.

(** [os.path.join(a, b)] (posixpath). *)
Definition path_join (a b : string) : string :=
  if Str.startswith b "/" then b
  else if String.eqb a "" || Str.endswith a "/" then a ++ b
  else a ++ "/" ++ b.

(** ** Exceptions *)

(** What a [raise] raises: its class name, whether it is an instance of
    [Exception] (what [except Exception] catches: [KeyboardInterrupt],
    [SystemExit], [GeneratorExit] and instances of classes outside the
    [Exception] hierarchy are not), the two attributes the dispatcher
    probes ([hasattr(err, 'text')], [getattr(err, 'code', 1)]; [None]
    when the attribute is missing) and the text
    [traceback.format_exc()] renders while it is being handled. *)
Record PyErr : Type := mkErr {
  err_class : string;
  err_is_exception : bool;
  err_text : option pyval;
  err_code : option pyval;
  err_trace : string
}.

Definition nl : string := String (ascii_of_nat 10) EmptyString.

Definition builtin_error (cls msg : string) : PyErr :=
  {| err_class := cls; err_is_exception := true;
     err_text := None; err_code := None;
     err_trace := "Traceback (most recent call last):" ++ nl
                  ++ cls ++ ": " ++ msg ++ nl |}.

Definition ValueError : string -> PyErr := builtin_error "ValueError".
Definition TypeError : string -> PyErr := builtin_error "TypeError".

Inductive Result (A : Type) : Type :=
| Ok (a : A)
| Raise (e : PyErr).
Arguments Ok {A} a.
Arguments Raise {A} e.

(** [int(x)] *)
Definition int (v : pyval) : Result Z :=
  match v with
  | VInt z => Ok z
  | VBool b => Ok (if b then 1 else 0)
  | VStr s =>
      match Str.to_int s with
      | Some z => Ok z
      | None => Raise (ValueError ("invalid literal for int() with base 10: " ++ Repr.repr s))
      end
  | VNone => Raise (TypeError "int() argument must be a string or a number, not 'NoneType'")
  end.

(** ** The CLI object *)

(** [swiftly.client.ClientManager(client_class, **kwargs)], by client
    class, with the keyword arguments [_parse_args] passes (the
    [verbose] argument is [self._verbose] in all three). *)
Inductive ClientManager : Type :=
| LocalClient (local_path : pyval)
| DirectClient (swift_proxy_storage_path : pyval) (attempts : Z)
    (eventlet : bool) (direct_object_ring : pyval)
| StandardClient (auth_methods auth_url auth_tenant auth_user auth_key
    auth_cache_path region snet : pyval) (attempts : Z) (eventlet : bool)
    (http_proxy : pyval).

Record IOManager : Type := mkIO {
  stderr : string;                               (* written through with_stderr() *)
  subprocess_module : option SubprocessModule;
  io_verbose : bool                              (* io_manager.verbose is set *)
}.

(** [self.context]; an attribute that was never assigned is [None]. *)
Record CLIContext : Type := mkContext {
  verbose : bool;                                (* context.verbose is self._verbose *)
  verbosity : option Z;
  io_manager : IOManager;
  original_args : list string;
  original_main_args : list string;
  conf : gmap string (gmap string string);
  eventlet : option bool;
  client_manager : option ClientManager;
  cdn : option pyval;
  concurrency : option Z
}.

(** A command instance called on its arguments: it works on the shared
    context and returns normally or raises. *)
Definition Command : Type := list string -> CLIContext -> option PyErr * CLIContext.

(** What the option parser printed. *)
Inductive Printed : Type := print_version | print_help.

(** [self.option_parser]: [parse_args] gives the options and the
    remaining arguments, or [None] when [error_encountered] is set. *)
Record OptionParser : Type := mkParser {
  parse_args : list string -> option (Values * list string);
  printed : list Printed
}.

(** The [CLI] instance.  [calls] is the history of the command entry
    points that were called, with their arguments. *)
Record CLI : Type := mkCLI {
  context : CLIContext;
  commands : gmap string Command;
  option_parser : OptionParser;
  calls : list (string * list string)
}.

(** The state [CLI.__init__] leaves. *)
Definition init_context : CLIContext :=
  {| verbose := false; verbosity := None;
     io_manager := {| stderr := ""; subprocess_module := None; io_verbose := false |};
     original_args := []; original_main_args := [];
     conf := ∅; eventlet := None; client_manager := None;
     cdn := None; concurrency := None |}.

Definition CLI_init (cmds : gmap string Command)
    (parser : list string -> option (Values * list string)) : CLI :=
  {| context := init_context; commands := cmds;
     option_parser := {| parse_args := parser; printed := [] |};
     calls := [] |}.

(** ** A state and exception monad over the CLI object *)

Definition M (A : Type) : Type := CLI -> Result A * CLI.

Definition ret {A} (a : A) : M A := fun s => (Ok a, s).
Definition raise {A} (e : PyErr) : M A := fun s => (Raise e, s).
Definition bind {A B} (m : M A) (k : A -> M B) : M B :=
  fun s => match m s with
           | (Ok a, s') => k a s'
           | (Raise e, s') => (Raise e, s')
           end.
Definition lift {A} (r : Result A) : M A := fun s => (r, s).
Definition get_context : M CLIContext := fun s => (Ok (context s), s).
Definition modify_context (f : CLIContext -> CLIContext) : M unit :=
  fun s => (Ok tt, {| context := f (context s); commands := commands s;
                      option_parser := option_parser s; calls := calls s |}).

#[global] Instance M_ret : MRet M := @ret.
#[global] Instance M_bind : MBind M := fun A B k m => bind m k.

(** A [for] loop whose body can raise. *)
Fixpoint for_each {A S} (l : list A) (body : S -> A -> Result S) (s : S) : Result S :=
  match l with
  | [] => Ok s
  | x :: r =>
      match body s x with
      | Ok s' => for_each r body s'
      | Raise e => Raise e
      end
  end.

(** Attribute assignments on [self.context]. *)
Definition set_verbose (c : CLIContext) (v : bool) (n : option Z) : CLIContext :=
  {| verbose := v; verbosity := n; io_manager := io_manager c;
     original_args := original_args c; original_main_args := original_main_args c;
     conf := conf c; eventlet := eventlet c; client_manager := client_manager c;
     cdn := cdn c; concurrency := concurrency c |}.

Definition set_io_manager (c : CLIContext) (io : IOManager) : CLIContext :=
  {| verbose := verbose c; verbosity := verbosity c; io_manager := io;
     original_args := original_args c; original_main_args := original_main_args c;
     conf := conf c; eventlet := eventlet c; client_manager := client_manager c;
     cdn := cdn c; concurrency := concurrency c |}.

Definition set_original_args (c : CLIContext) (a : list string) : CLIContext :=
  {| verbose := verbose c; verbosity := verbosity c; io_manager := io_manager c;
     original_args := a; original_main_args := original_main_args c;
     conf := conf c; eventlet := eventlet c; client_manager := client_manager c;
     cdn := cdn c; concurrency := concurrency c |}.

Definition set_original_main_args (c : CLIContext) (a : list string) : CLIContext :=
  {| verbose := verbose c; verbosity := verbosity c; io_manager := io_manager c;
     original_args := original_args c; original_main_args := a;
     conf := conf c; eventlet := eventlet c; client_manager := client_manager c;
     cdn := cdn c; concurrency := concurrency c |}.

Definition set_conf (c : CLIContext) (d : gmap string (gmap string string)) : CLIContext :=
  {| verbose := verbose c; verbosity := verbosity c; io_manager := io_manager c;
     original_args := original_args c; original_main_args := original_main_args c;
     conf := d; eventlet := eventlet c; client_manager := client_manager c;
     cdn := cdn c; concurrency := concurrency c |}.

Definition set_eventlet (c : CLIContext) (e : option bool) : CLIContext :=
  {| verbose := verbose c; verbosity := verbosity c; io_manager := io_manager c;
     original_args := original_args c; original_main_args := original_main_args c;
     conf := conf c; eventlet := e; client_manager := client_manager c;
     cdn := cdn c; concurrency := concurrency c |}.

Definition set_client_manager (c : CLIContext) (m : ClientManager) : CLIContext :=
  {| verbose := verbose c; verbosity := verbosity c; io_manager := io_manager c;
     original_args := original_args c; original_main_args := original_main_args c;
     conf := conf c; eventlet := eventlet c; client_manager := Some m;
     cdn := cdn c; concurrency := concurrency c |}.

Definition set_cdn (c : CLIContext) (v : pyval) : CLIContext :=
  {| verbose := verbose c; verbosity := verbosity c; io_manager := io_manager c;
     original_args := original_args c; original_main_args := original_main_args c;
     conf := conf c; eventlet := eventlet c; client_manager := client_manager c;
     cdn := Some v; concurrency := concurrency c |}.

Definition set_concurrency (c : CLIContext) (n : Z) : CLIContext :=
  {| verbose := verbose c; verbosity := verbosity c; io_manager := io_manager c;
     original_args := original_args c; original_main_args := original_main_args c;
     conf := conf c; eventlet := eventlet c; client_manager := client_manager c;
     cdn := cdn c; concurrency := Some n |}.

(** [with io_manager.with_stderr() as fp: fp.write(s)] *)
Definition write_stderr (c : CLIContext) (s : string) : CLIContext :=
  set_io_manager c
    {| stderr := stderr (io_manager c) ++ s;
       subprocess_module := subprocess_module (io_manager c);
       io_verbose := io_verbose (io_manager c) |}.

(** ** Option resolution *)

(** The main options resolved by [_parse_args] (lines 308-313). *)
Definition main_options : list string :=
  ["auth_url"; "auth_user"; "auth_key"; "auth_tenant";
   "auth_methods"; "region"; "direct"; "local"; "proxy"; "snet";
   "no_snet"; "retries"; "cache_auth"; "no_cache_auth"; "cdn";
   "no_cdn"; "concurrency"; "eventlet"; "no_eventlet"; "verbose";
   "no_verbose"; "direct_object_ring"].

(** The options converted to booleans (lines 315-317). *)
Definition flag_options : list string :=
  ["snet"; "no_snet"; "cache_auth"; "no_cache_auth"; "cdn";
   "no_cdn"; "eventlet"; "no_eventlet"; "verbose"; "no_verbose"].

(** The options converted to integers (line 322). *)
Definition int_options : list string := ["retries"; "concurrency"].

(** [CLI._resolve_option] (lines 421-446); [conf] is
    [self.context.conf]. *)
Definition _resolve_option (conf : gmap string (gmap string string)) (os : OS)
    (options : Values) (option_name section_name : string) : Values :=
  if negb (is_None (getattr options option_name)) then options
  else
    let '(environ_name, conf_name) :=
      if Str.startswith option_name (section_name ++ "_")
      then (Str.upper option_name,
            Str.slice_from (String.length section_name + 1) option_name)
      else (Str.upper (section_name ++ "_" ++ option_name), option_name) in
    setattr options option_name
      (dict_get (environ os) environ_name
         (dict_get (default ∅ (conf !! section_name)) conf_name VNone)).

(** The body of the loop of lines 315-321. *)
Definition coerce_flag (options : Values) (option_name : string) : Values :=
  match getattr options option_name with
  | VStr s => setattr options option_name (VBool (in_TRUE_VALUES (Str.lower s)))
  | _ => options
  end.

(** The body of the loop of lines 322-325. *)
Definition coerce_int (options : Values) (option_name : string) : Result Values :=
  if is_basestring (getattr options option_name) then
    match int (getattr options option_name) with
    | Ok z => Ok (setattr options option_name (VInt z))
    | Raise e => Raise e
    end
  else Ok options.

(** [if options.x is None: options.x = v] *)
Definition default_to (option_name : string) (v : pyval) (options : Values) : Values :=
  if is_None (getattr options option_name) then setattr options option_name v
  else options.

(** Lines 326-349. *)
Definition apply_defaults (options : Values) : Values :=
  let options := default_to "snet" (VBool false) options in
  let options := default_to "no_snet" (VBool false) options in
  let options := default_to "retries" (VInt 4) options in
  let options := default_to "cache_auth" (VBool false) options in
  let options := default_to "no_cache_auth" (VBool false) options in
  let options := default_to "cdn" (VBool false) options in
  let options := default_to "no_cdn" (VBool false) options in
  let options := default_to "concurrency" (VInt 1) options in
  let options := default_to "eventlet" (VBool false) options in
  let options := default_to "no_eventlet" (VBool false) options in
  let options := default_to "verbose" (VBool false) options in
  let options := default_to "no_verbose" (VBool false) options in
  options.

(** The loop of lines 308-314. *)
Definition resolve_main_options (conf : gmap string (gmap string string)) (os : OS)
    (options : Values) : Values :=
  foldl (fun o option_name => _resolve_option conf os o option_name "swiftly")
    options main_options.

(** Lines 308-349: the cascade, the conversions and the defaults. *)
Definition resolve_options (conf : gmap string (gmap string string)) (os : OS)
    (options : Values) : Result Values :=
  let options := resolve_main_options conf os options in
  let options := foldl coerce_flag options flag_options in
  match for_each int_options coerce_int options with
  | Ok options => Ok (apply_defaults options)
  | Raise e => Raise e
  end.

(** ** The configuration file *)

(** [dict(conf_parser.items(section))] *)
Definition dict_of_items (items : list (string * string)) : gmap string string :=
  foldl (fun d kv => <[kv.1 := kv.2]> d) ∅ items.

(** The loop of lines 303-304 inside the [try]: a [ConfigParserError]
    leaves the sections copied so far. *)
Fixpoint copy_sections (sections : list (string * option (list (string * string))))
    (conf : gmap string (gmap string string)) : gmap string (gmap string string) :=
  match sections with
  | [] => conf
  | (section, Some items) :: rest =>
      copy_sections rest (<[section := dict_of_items items]> conf)
  | (_, None) :: _ => conf
  end.

(** Lines 297-306, for the path in [options.conf]. *)
Definition load_conf (os : OS) (path : string) : gmap string (gmap string string) :=
  match files os (expanduser os path) with
  | ConfUnparsable => ∅
  | ConfSections sections => copy_sections sections ∅
  end.

(** ** Eventlet *)

(** Lines 351-364: the value of [self.context.eventlet]. *)
Definition choose_eventlet (os : OS) (options : Values) : bool :=
  let eventlet : option bool := None in
  let eventlet := if truthy (getattr options "eventlet") then Some true else eventlet in
  let eventlet := if truthy (getattr options "no_eventlet") then Some false else eventlet in
  match eventlet with
  | Some b => b
  | None =>
      match eventlet_version os with
      | Some version => String.leb "0.11.0" version
      | None => false
      end
  end.

(** Lines 366-376. *)
Definition choose_subprocess (os : OS) (eventlet : bool) : SubprocessModule :=
  let subprocess_module :=
    if eventlet && has_green_subprocess os then Some eventlet_green_subprocess
    else None in
  match subprocess_module with
  | Some m => m
  | None => subprocess
  end.

(** ** Parsing the arguments *)

Definition modify (f : CLI -> CLI) : M unit := fun s => (Ok tt, f s).
Definition get_self : M CLI := fun s => (Ok s, s).

(** [self.option_parser.print_version()], [print_help()] *)
Definition print (p : Printed) : M unit :=
  modify (fun s =>
    {| context := context s; commands := commands s;
       option_parser := {| parse_args := parse_args (option_parser s);
                           printed := printed (option_parser s) ++ [p] |};
       calls := calls s |}).

(** Lines 298-299: the path of the configuration file. *)
Definition conf_option (os : OS) (options : Values) : Values :=
  if is_None (getattr options "conf") then
    setattr options "conf"
      (dict_get (environ os) "SWIFTLY_CONF" (VStr "~/.swiftly.conf"))
  else options.

(** The argument of [os.path.expanduser] must be a string. *)
Definition as_path (v : pyval) : Result string :=
  match v with
  | VStr p => Ok p
  | _ => Raise (builtin_error "AttributeError" "object has no attribute 'startswith'")
  end.

(** Lines 274-349 of [CLI._parse_args]: the command line is parsed, the
    configuration file is loaded and the main options are resolved.
    The result is [None] where the source returns [None, None]. *)
Definition parse_main_options (os : OS) (args : option (list string))
    : M (option (Values * list string)) :=
  let original_args := match args with Some a => a | None => argv os end in
  modify_context (fun c => set_original_args c original_args);;
  self ← get_self;
  match parse_args (option_parser self) original_args with
  | None => mret None
  | Some (options, args) =>
      if truthy (getattr options "version") then
        print print_version;; mret None
      else if bool_decide (args = []) || truthy (getattr options "help") then
        print print_help;; mret None
      else
        modify_context (fun c => set_original_main_args c
          (take (length original_args - length args) original_args));;
        modify_context (fun c => set_conf c ∅);;
        let options := conf_option os options in
        path ← lift (as_path (getattr options "conf"));
        modify_context (fun c => set_conf c (load_conf os path));;
        c ← get_context;
        options ← lift (resolve_options (conf c) os options);
        mret (Some (options, args))
  end.

(** Lines 416-419. *)
Definition finish_parse (options : Values) (args : list string)
    : M (option (Values * list string)) :=
  modify_context (fun c => set_cdn c (getattr options "cdn"));;
  concurrency ← lift (int (getattr options "concurrency"));
  modify_context (fun c => set_concurrency c concurrency);;
  mret (Some (options, args)).

(** Lines 396-401: [user] is [os.environ.get('USER', 'user')]. *)
Definition auth_cache_path_of (os : OS) (options : Values) : pyval :=
  if truthy (getattr options "cache_auth") then
    match dict_get (environ os) "USER" (VStr "user") with
    | VStr user => VStr (path_join (gettempdir os) (user ++ ".swiftly"))
    | _ => VNone
    end
  else VNone.

(** [args and args[0] == 'help'] *)
Definition is_help (args : list string) : bool :=
  match args with
  | arg0 :: _ => String.eqb arg0 "help"
  | [] => false
  end.

(** Lines 385-414: the choice of the client manager.  [retries] is the
    integer in [options.retries]. *)
Definition select_client (os : OS) (options : Values) (retries : Z)
    (args : list string) : M (option (Values * list string)) :=
  if is_help args then
    mret (Some (options, args))
  else if truthy (getattr options "local") then
    modify_context (fun c => set_client_manager c
      (LocalClient (getattr options "local")));;
    finish_parse options args
  else if truthy (getattr options "direct") then
    modify_context (fun c => set_client_manager c
      (DirectClient (getattr options "direct") (retries + 1)
         (default false (eventlet c)) (getattr options "direct_object_ring")));;
    finish_parse options args
  else
    let auth_cache_path := auth_cache_path_of os options in
    if negb (truthy (getattr options "auth_url")) then
      modify_context (fun c => write_stderr c ("No Auth URL has been given." ++ nl));;
      mret None
    else
      modify_context (fun c => set_client_manager c
        (StandardClient (getattr options "auth_methods") (getattr options "auth_url")
           (getattr options "auth_tenant") (getattr options "auth_user")
           (getattr options "auth_key") auth_cache_path (getattr options "region")
           (getattr options "snet") (retries + 1) (default false (eventlet c))
           (getattr options "proxy")));;
      finish_parse options args.

(** Lines 351-419 of [CLI._parse_args], for the resolved options. *)
Definition configure (os : OS) (options : Values) (args : list string)
    : M (option (Values * list string)) :=
  let eventlet := choose_eventlet os options in
  modify_context (fun c => set_eventlet c (Some eventlet));;
  modify_context (fun c => set_io_manager c
    {| stderr := stderr (io_manager c);
       subprocess_module := Some (choose_subprocess os eventlet);
       io_verbose := io_verbose (io_manager c) |});;
  (if truthy (getattr options "verbose") then
     modify_context (fun c => set_io_manager (set_verbose c true (Some 1))
       {| stderr := stderr (io_manager c);
          subprocess_module := subprocess_module (io_manager c);
          io_verbose := true |})
   else mret tt);;
  retries ← lift (int (getattr options "retries"));
  let options := setattr options "retries" (VInt retries) in
  select_client os options retries args.

(** [CLI._parse_args] (lines 273-419). *)
Definition _parse_args (os : OS) (args : option (list string))
    : M (option (Values * list string)) :=
  r ← parse_main_options os args;
  match r with
  | None => mret None
  | Some (options, args) => configure os options args
  end.

(** ** Dispatch *)

(** [fp.write(v)]: the stream takes strings only. *)
Definition fp_write (v : pyval) : M unit :=
  match v with
  | VStr s => modify_context (fun c => write_stderr c s)
  | _ => raise (TypeError "expected a character buffer object")
  end.

(** [self.commands[command](args)]: the call is recorded in [calls] and
    the command works on the context. *)
Definition call_command (command : string) (cmd : Command) (args : list string)
    : M (option PyErr) :=
  fun s =>
    let '(r, c) := cmd args (context s) in
    (Ok r, {| context := c; commands := commands s;
              option_parser := option_parser s;
              calls := calls s ++ [(command, args)] |}).

(** The body of the [except Exception as err] block (lines 460-472). *)
Definition handle_error (err : PyErr) : M pyval :=
  match err_text err with
  | Some text =>
      if truthy text then
        fp_write (VStr "ERROR ");;
        fp_write text;;
        fp_write (VStr nl)
      else mret tt
  | None =>
      fp_write (VStr (err_trace err));;
      fp_write (VStr nl)
  end;;
  mret (default (VInt 1) (err_code err)).

(** [CLI._perform_command] (lines 448-473). *)
Definition _perform_command (args : list string) : M pyval :=
  match args with
  | [] => raise (builtin_error "IndexError" "list index out of range")
  | arg0 :: rest =>
      let command := arg0 in
      let command := if String.eqb command "for" then "fordo" else command in
      self ← get_self;
      match commands self !! command with
      | None =>
          modify_context (fun c => write_stderr c
            ("ERROR unknown command " ++ Repr.repr arg0 ++ nl));;
          mret (VInt 1)
      | Some cmd =>
          r ← call_command command cmd rest;
          match r with
          | Some err =>
              if err_is_exception err then handle_error err
              else raise err
          | None => mret (VInt 0)
          end
      end
  end.

(** [CLI.__call__] (lines 267-271): the value handed to [sys.exit]. *)
Definition __call__ (os : OS) (args : option (list string)) : M pyval :=
  r ← _parse_args os args;
  match r with
  | None => mret (VInt 1)
  | Some (options, args) => _perform_command args
  end.

(** ** Example inputs *)

Module Examples.

(** An option parser whose result is given: the options that were
    supplied on the command line and the remaining arguments. *)
Definition parsed (options : list (string * pyval)) (args : list string)
    : list string -> option (Values * list string) :=
  fun _ => Some (list_to_map options, args).

(** No environment variable, no configuration file, no Eventlet. *)
Definition os0 : OS :=
  {| environ := ∅; argv := []; expanduser := fun p => p;
     files := fun _ => ConfSections [];
     gettempdir := "/tmp"; eventlet_version := None;
     has_green_subprocess := false |}.

Definition with_environ (os : OS) (e : list (string * string)) : OS :=
  {| environ := list_to_map e; argv := argv os; expanduser := expanduser os;
     files := files os; gettempdir := gettempdir os;
     eventlet_version := eventlet_version os;
     has_green_subprocess := has_green_subprocess os |}.

Definition with_file (os : OS) (f : ConfFile) : OS :=
  {| environ := environ os; argv := argv os; expanduser := expanduser os;
     files := fun _ => f; gettempdir := gettempdir os;
     eventlet_version := eventlet_version os;
     has_green_subprocess := has_green_subprocess os |}.

(** A command that returns normally, and one that raises. *)
Definition succeeds : Command := fun _ c => (None, c).
Definition raises (e : PyErr) : Command := fun _ c => (Some e, c).

Definition cmds (get : Command) : gmap string Command :=
  {[ "get" := get; "help" := succeeds; "fordo" := succeeds ]}.

(** What an invocation leaves behind: the result, the client manager,
    the error stream and the commands that were called. *)
Definition observe (r : Result pyval * CLI)
    : Result pyval * option ClientManager * string * list (string * list string) :=
  (r.1, client_manager (context r.2), stderr (io_manager (context r.2)), calls r.2).

End Examples.

(** ** Values and predicates used in the statements *)

(** What [_resolve_option] leaves in an attribute whose value was [v]. *)
Definition resolved_value (conf : gmap string (gmap string string)) (os : OS)
    (section_name option_name : string) (v : pyval) : pyval :=
  if negb (is_None v) then v
  else
    let '(environ_name, conf_name) :=
      if Str.startswith option_name (section_name ++ "_")
      then (Str.upper option_name,
            Str.slice_from (String.length section_name + 1) option_name)
      else (Str.upper (section_name ++ "_" ++ option_name), option_name) in
    dict_get (environ os) environ_name
      (dict_get (default ∅ (conf !! section_name)) conf_name VNone).

(** The cascade in the words of the specification: the value supplied
    on the command line, else the environment variable
    SWIFTLY_<OPTION_NAME_UPPER>, else the value of the configuration
    file under the section swiftly, else nothing. *)
Definition cascade (conf : gmap string (gmap string string)) (os : OS)
    (option_name : string) (cli : pyval) : pyval :=
  match cli with
  | VNone =>
      match environ os !! ("SWIFTLY_" ++ Str.upper option_name) with
      | Some s => VStr s
      | None =>
          match conf !! "swiftly" ≫= (fun sec => sec !! option_name) with
          | Some s => VStr s
          | None => VNone
          end
      end
  | v => v
  end.

(** The conversion of lines 315-321 on a value. *)
Definition flag_converted (v : pyval) : pyval :=
  match v with
  | VStr s => VBool (in_TRUE_VALUES (Str.lower s))
  | _ => v
  end.

(** The conversion of lines 322-325 on a value. *)
Definition int_converted (v : pyval) : Result pyval :=
  match v with
  | VStr s =>
      match Str.to_int s with
      | Some z => Ok (VInt z)
      | None => Raise (ValueError ("invalid literal for int() with base 10: " ++ Repr.repr s))
      end
  | _ => Ok v
  end.

Definition defaulted (d v : pyval) : pyval :=
  match v with VNone => d | _ => v end.

(** The built-in defaults (lines 326-349): false for the flags, 4 for
    [retries], 1 for [concurrency], and none for the other options. *)
Definition builtin_default (option_name : string) : pyval :=
  if existsb (String.eqb option_name) flag_options then VBool false
  else if String.eqb option_name "retries" then VInt 4
  else if String.eqb option_name "concurrency" then VInt 1
  else VNone.

(** The typed value of an option, in the words of the specification,
    from the value [raw] the cascade gives: a flag is true for a string
    of the vocabulary in any letter case and false for another string,
    an integer option is parsed, and an absent value is replaced by the
    built-in default. *)
Definition final_value (option_name : string) (raw : pyval) : Result pyval :=
  if existsb (String.eqb option_name) flag_options then
    Ok match raw with
       | VNone => VBool false
       | VStr s => VBool (in_TRUE_VALUES (Str.lower s))
       | v => v
       end
  else if existsb (String.eqb option_name) int_options then
    match raw with
    | VNone => Ok (builtin_default option_name)
    | VStr s =>
        match Str.to_int s with
        | Some z => Ok (VInt z)
        | None => Raise (ValueError ("invalid literal for int() with base 10: " ++ Repr.repr s))
        end
    | v => Ok v
    end
  else Ok raw.

(** The option parser accepted the command line: it gave the options
    [parsed] and the remaining arguments [rest], which are not empty;
    neither the version nor the help was asked for; and the
    configuration file is looked for at [path]. *)
Definition accepted (self : CLI) (os : OS) (args : option (list string))
    (parsed : Values) (rest : list string) (path : string) : Prop :=
  parse_args (option_parser self)
    (match args with Some a => a | None => argv os end) = Some (parsed, rest) /\
  truthy (getattr parsed "version") = false /\
  truthy (getattr parsed "help") = false /\
  rest <> [] /\
  as_path (getattr (conf_option os parsed) "conf") = Ok path.

(** The state in which the options get resolved. *)
Definition parsed_state (self : CLI) (os : OS) (args : option (list string))
    (rest : list string) (path : string) : CLI :=
  let original_args := match args with Some a => a | None => argv os end in
  {| context :=
       set_conf
         (set_original_main_args (set_original_args (context self) original_args)
            (take (length original_args - length rest) original_args))
         (load_conf os path);
     commands := commands self;
     option_parser := option_parser self;
     calls := calls self |}.

(** The state in which the client is chosen (lines 351-382). *)
Definition configured (os : OS) (options : Values) (s : CLI) : CLI :=
  let c := set_eventlet (context s) (Some (choose_eventlet os options)) in
  let c := set_io_manager c
    {| stderr := stderr (io_manager c);
       subprocess_module := Some (choose_subprocess os (choose_eventlet os options));
       io_verbose := io_verbose (io_manager c) |} in
  let c :=
    if truthy (getattr options "verbose") then
      set_io_manager (set_verbose c true (Some 1))
        {| stderr := stderr (io_manager c);
           subprocess_module := subprocess_module (io_manager c);
           io_verbose := true |}
    else c in
  {| context := c; commands := commands s;
     option_parser := option_parser s; calls := calls s |}.

(** The resolved options of an invocation, when the resolution does not
    raise. *)
Definition resolved_of (os : OS) (parsed : Values) (path : string) : Values :=
  match resolve_options (load_conf os path) os (conf_option os parsed) with
  | Ok options => options
  | Raise _ => ∅
  end.

(** Whether the resolution of an invocation returns, rather than
    raising. *)
Definition resolves (os : OS) (parsed : Values) (path : string) : bool :=
  match resolve_options (load_conf os path) os (conf_option os parsed) with
  | Ok _ => true
  | Raise _ => false
  end.

(** The [attempts] argument a client manager was given; the Local
    client takes none. *)
Definition attempts_of (m : ClientManager) : option Z :=
  match m with
  | LocalClient _ => None
  | DirectClient _ attempts _ _ => Some attempts
  | StandardClient _ _ _ _ _ _ _ _ attempts _ _ => Some attempts
  end.

(** The [eventlet] argument a client manager was given. *)
Definition eventlet_of (m : ClientManager) : option bool :=
  match m with
  | LocalClient _ => None
  | DirectClient _ _ eventlet _ => Some eventlet
  | StandardClient _ _ _ _ _ _ _ _ _ eventlet _ => Some eventlet
  end.

(** ** Inputs of the examples *)

Module CascadeExample.

(** The three sources disagree on the auth URL and on [snet]; the
    number of retries comes from the environment only. *)
Definition conf : gmap string (gmap string string) :=
  {[ "swiftly" := {[ "auth_url" := "http://conf"; "snet" := "no";
                     "retries" := "2"; "region" := "DFW" ]} ]}.

Definition os : OS :=
  Examples.with_environ Examples.os0
    [("SWIFTLY_AUTH_URL", "http://env"); ("SWIFTLY_SNET", "YES");
     ("SWIFTLY_RETRIES", "7")].

Definition options : Values :=
  {[ "auth_url" := VStr "http://cli" ]}.

End CascadeExample.

Module BackendExample.

(** [swiftly --local /srv/fake --direct /v1/AUTH_test get c] *)
Definition args : list string :=
  ["--local"; "/srv/fake"; "--direct"; "/v1/AUTH_test"; "get"; "c"].
Definition parsed : list (string * pyval) :=
  [("local", VStr "/srv/fake"); ("direct", VStr "/v1/AUTH_test")].
Definition self : CLI :=
  CLI_init (Examples.cmds Examples.succeeds) (Examples.parsed parsed ["get"; "c"]).

(** [swiftly --local '' --direct /v1/AUTH_test get c] *)
Definition empty_local : list (string * pyval) :=
  [("local", VStr EmptyString); ("direct", VStr "/v1/AUTH_test")].
Definition self_empty_local : CLI :=
  CLI_init (Examples.cmds Examples.succeeds) (Examples.parsed empty_local ["get"; "c"]).

End BackendExample.

Module NoAuthExample.

(** [swiftly get c], with nothing in the environment and no
    configuration file. *)
Definition self : CLI :=
  CLI_init (Examples.cmds Examples.succeeds) (Examples.parsed [] ["get"; "c"]).

End NoAuthExample.

Module CacheExample.

(** [swiftly -A http://auth -C get c] for the user alice. *)
Definition os : OS := Examples.with_environ Examples.os0 [("USER", "alice")].
Definition parsed : list (string * pyval) :=
  [("auth_url", VStr "http://auth"); ("cache_auth", VBool true)].
Definition self : CLI :=
  CLI_init (Examples.cmds Examples.succeeds) (Examples.parsed parsed ["get"; "c"]).
Definition args : list string := ["-A"; "http://auth"; "-C"; "get"; "c"].

End CacheExample.

Module HelpExample.

(** [swiftly help], with no auth URL anywhere and a configuration file
    that cannot be parsed. *)
Definition os : OS := Examples.with_file Examples.os0 ConfUnparsable.
Definition self : CLI :=
  CLI_init (Examples.cmds Examples.succeeds) (Examples.parsed [] ["help"]).

End HelpExample.

Module RetriesExample.

(** [SWIFTLY_RETRIES=abc swiftly -A http://auth get c] *)
Definition os : OS := Examples.with_environ Examples.os0 [("SWIFTLY_RETRIES", "abc")].
Definition parsed : list (string * pyval) := [("auth_url", VStr "http://auth")].
Definition self : CLI :=
  CLI_init (Examples.cmds Examples.succeeds) (Examples.parsed parsed ["get"; "c"]).
Definition args : list string := ["-A"; "http://auth"; "get"; "c"].

End RetriesExample.

Module NegationExample.

(** [swiftly --no-snet --no-cache-auth --no-cdn --no-verbose -A
    http://auth get c], with the four positive halves set to true in
    the environment. *)
Definition os : OS :=
  Examples.with_environ Examples.os0
    [("SWIFTLY_SNET", "true"); ("SWIFTLY_CACHE_AUTH", "true");
     ("SWIFTLY_CDN", "true"); ("SWIFTLY_VERBOSE", "true")].
Definition parsed : list (string * pyval) :=
  [("no_snet", VBool true); ("no_cache_auth", VBool true);
   ("no_cdn", VBool true); ("no_verbose", VBool true);
   ("auth_url", VStr "http://auth")].
Definition args : list string :=
  ["--no-snet"; "--no-cache-auth"; "--no-cdn"; "--no-verbose";
   "-A"; "http://auth"; "get"; "c"].
Definition self : CLI :=
  CLI_init (Examples.cmds Examples.succeeds) (Examples.parsed parsed ["get"; "c"]).

End NegationExample.

Module EmptyEnvironmentExample.

(** [SWIFTLY_RETRIES= swiftly ...], with [retries = 3] in the
    configuration file. *)
Definition conf : gmap string (gmap string string) :=
  {[ "swiftly" := {[ "retries" := "3" ]} ]}.
Definition os : OS :=
  Examples.with_environ Examples.os0 [("SWIFTLY_RETRIES", EmptyString)].

End EmptyEnvironmentExample.

Module ConfExample.

(** [SWIFTLY_CONF=/etc/swiftly.conf swiftly get c], where that file
    gives the auth URL. *)
Definition os : OS :=
  {| environ := {[ "SWIFTLY_CONF" := "/etc/swiftly.conf" ]}; argv := [];
     expanduser := fun p => p;
     files := fun p =>
       if String.eqb p "/etc/swiftly.conf"
       then ConfSections [("swiftly", Some [("auth_url", "http://conf")])]
       else ConfSections [];
     gettempdir := "/tmp"; eventlet_version := None;
     has_green_subprocess := false |}.
Definition self : CLI :=
  CLI_init (Examples.cmds Examples.succeeds) (Examples.parsed [] ["get"; "c"]).

End ConfExample.

Module EventletExample.

(** [swiftly --eventlet --no-eventlet -L /srv/fake get c], with
    Eventlet 0.13 installed. *)
Definition os : OS :=
  {| environ := ∅; argv := []; expanduser := fun p => p;
     files := fun _ => ConfSections [];
     gettempdir := "/tmp"; eventlet_version := Some "0.13.0";
     has_green_subprocess := true |}.
Definition parsed : list (string * pyval) :=
  [("eventlet", VBool true); ("no_eventlet", VBool true); ("local", VStr "/srv/fake")].
Definition args : list string :=
  ["--eventlet"; "--no-eventlet"; "-L"; "/srv/fake"; "get"; "c"].
Definition self : CLI :=
  CLI_init (Examples.cmds Examples.succeeds) (Examples.parsed parsed ["get"; "c"]).

(** Eventlet 0.9.17 installed: the string "0.9.17" is above
    "0.11.0". *)
Definition os_old : OS :=
  {| environ := ∅; argv := []; expanduser := fun p => p;
     files := fun _ => ConfSections [];
     gettempdir := "/tmp"; eventlet_version := Some "0.9.17";
     has_green_subprocess := true |}.
Definition self_plain : CLI :=
  CLI_init (Examples.cmds Examples.succeeds)
    (Examples.parsed [("local", VStr "/srv/fake")] ["get"; "c"]).

End EventletExample.

Module PartialConfExample.

(** A file whose second section cannot be interpolated; the section
    [swiftly] comes third. *)
Definition os : OS :=
  Examples.with_file Examples.os0
    (ConfSections [("first", Some [("a", "1")]); ("second", None);
                   ("swiftly", Some [("auth_url", "http://conf")])]).

End PartialConfExample.

Module ConcurrencyExample.

(** [SWIFTLY_CONCURRENCY=x swiftly get c] *)
Definition os : OS := Examples.with_environ Examples.os0 [("SWIFTLY_CONCURRENCY", "x")].

End ConcurrencyExample.

Module BadRetriesExample.

(** A configuration file with [retries = abc] in its section
    [swiftly]. *)
Definition os : OS :=
  Examples.with_file Examples.os0
    (ConfSections [("swiftly", Some [("retries", "abc")])]).

End BadRetriesExample.

(** ** The constructor *)

(** [COMMANDS] (lines 38-51). *)
Definition COMMANDS : list string :=
  ["swiftly.cli.auth.CLIAuth"; "swiftly.cli.decrypt.CLIDecrypt";
   "swiftly.cli.delete.CLIDelete"; "swiftly.cli.encrypt.CLIEncrypt";
   "swiftly.cli.fordo.CLIForDo"; "swiftly.cli.get.CLIGet";
   "swiftly.cli.head.CLIHead"; "swiftly.cli.help.CLIHelp";
   "swiftly.cli.ping.CLIPing"; "swiftly.cli.post.CLIPost";
   "swiftly.cli.put.CLIPut"; "swiftly.cli.tempurl.CLITempURL";
   "swiftly.cli.trans.CLITrans"].

(** [s.rsplit('.', 1)], read as a pair: what is before the last dot and
    what is after it.  [None] stands for the one-element list that a
    string with no dot gives. *)
Fixpoint rsplit_dot (s : string) : option (string * string) :=
  match s with
  | EmptyString => None
  | String c r =>
      match rsplit_dot r with
      | Some (m, cls) => Some (String c m, cls)
      | None => if Ascii.eqb c "." then Some (EmptyString, r) else None
      end
  end.

(** [getattr(__import__(mod, fromlist=[cls]), cls)(self)]: the name of
    the instance and the instance, or the error of the import. *)
Definition Importer : Type := string -> string -> Result (string * Command).

(** The body of the loop of lines 106-110.  Unpacking a one-element
    list into [mod, cls] is a [ValueError]. *)
Definition register_command (import : Importer) (commands : gmap string Command)
    (command : string) : Result (gmap string Command) :=
  match rsplit_dot command with
  | None => Raise (ValueError "need more than 1 value to unpack")
  | Some (modname, cls) =>
      match import modname cls with
      | Ok (name, inst) => Ok (<[name := inst]> commands)
      | Raise e => Raise e
      end
  end.

(** Lines 103-110: [self.commands], for the list given to the
    constructor ([None] for [COMMANDS]). *)
Definition build_commands (import : Importer) (commands : option (list string))
    : Result (gmap string Command) :=
  let commands := match commands with Some l => l | None => COMMANDS end in
  for_each commands (register_command import) ∅.

(** The class path has a dot and the import of its class gives the
    instance. *)
Definition imports (import : Importer) (path : string)
    (instance : string * Command) : Prop :=
  exists modname cls,
    rsplit_dot path = Some (modname, cls) /\ import modname cls = Ok instance.

(** The text of the main help for one command (the body of the loop of
    lines 248-265). *)
Module Epilog.

(** [s.split(sep)] for a one-character separator, as a first piece and
    the pieces after it. *)
Fixpoint split_on (sep : ascii) (s : string) : string * list string :=
  match s with
  | EmptyString => (EmptyString, [])
  | String c r =>
      let '(first, others) := split_on sep r in
      if Ascii.eqb c sep then (EmptyString, first :: others)
      else (String c first, others)
  end.

Definition split (sep : ascii) (s : string) : list string :=
  let '(first, others) := split_on sep s in first :: others.

(** [s.split(']', 1)[1]]; [None] stands for the [IndexError]. *)
Fixpoint after_bracket (s : string) : option string :=
  match s with
  | EmptyString => None
  | String c r => if Ascii.eqb c "]" then Some r else after_bracket r
  end.

(** [s.rstrip()], [s.strip()] *)
Fixpoint rstrip (s : string) : string :=
  match s with
  | EmptyString => EmptyString
  | String c r =>
      match rstrip r with
      | EmptyString => if Str.is_space c then EmptyString else String c EmptyString
      | r' => String c r'
      end
  end.

Definition strip (s : string) : string := rstrip (Str.lstrip s).

(** [' ' * n] *)
Fixpoint spaces (n : nat) : string :=
  match n with
  | O => EmptyString
  | S k => String " " (spaces k)
  end.

(** [' '.join(lines)] *)
Fixpoint join (lines : list string) : string :=
  match lines with
  | [] => EmptyString
  | [l] => l
  | l :: r => l ++ String " " (join r)
  end.

(** [lines.pop(0)], [n] times; [None] stands for the [IndexError] of a
    pop from an empty list. *)
Fixpoint pop_front (n : nat) (lines : list string) : option (list string) :=
  match n, lines with
  | O, _ => Some lines
  | S _, [] => None
  | S k, _ :: r => pop_front k r
  end.

(** Lines 254-257: the lines before the first empty one. *)
Fixpoint until_empty (lines : list string) : list string :=
  match lines with
  | [] => []
  | l :: r => if String.eqb l EmptyString then [] else l :: until_empty r
  end.

(** Lines 258-262: the text that goes on a line of its own, and the
    initial indent. *)
Definition label (main_line : string) : string * string :=
  if (String.length main_line <? 24)%nat then
    (EmptyString, main_line ++ spaces (24 - String.length main_line))
  else (main_line ++ nl, spaces 24).

(** What one command adds to [raw_epilog], from the text of its
    [get_usage()]; [fill text width initial_indent subsequent_indent]
    is [textwrap.fill]. *)
Definition entry (fill : string -> nat -> string -> string -> string)
    (usage : string) : Result string :=
  let lines := split (ascii_of_nat 10) usage in
  match after_bracket (hd EmptyString lines) with
  | None => Raise (builtin_error "IndexError" "list index out of range")
  | Some t =>
      let main_line := "  " ++ strip t in
      match pop_front 4 lines with
      | None => Raise (builtin_error "IndexError" "pop from empty list")
      | Some lines =>
          let lines := until_empty lines in
          let '(own_line, initial_indent) := label main_line in
          Ok (own_line ++ fill (join lines) 79%nat initial_indent (spaces 24) ++ nl)
      end
  end.

End Epilog.

Module RegistryExample.

(** An import that gives, for every class but [Missing], an instance
    named as its class. *)
Definition import : Importer :=
  fun modname cls =>
    if String.eqb cls "Missing"
    then Raise (builtin_error "AttributeError" "'module' object has no attribute 'Missing'")
    else Ok (cls, Examples.succeeds).

Definition instances : list (string * Command) :=
  (fun cls => (cls, Examples.succeeds)) <$>
  ["CLIAuth"; "CLIDecrypt"; "CLIDelete"; "CLIEncrypt"; "CLIForDo"; "CLIGet";
   "CLIHead"; "CLIHelp"; "CLIPing"; "CLIPost"; "CLIPut"; "CLITempURL"; "CLITrans"].

End RegistryExample.

(** * Properties *)

(** ** Running the monad *)

Ltac run :=
  repeat progress
    (unfold mbind, mret, M_bind, M_ret, bind, ret, lift, raise, fp_write,
       modify_context, modify, get_self, get_context, print;
     cbn [fst snd negb context commands option_parser calls]).

Lemma write_stderr_stderr (c : CLIContext) (s : string) :
  stderr (io_manager (write_stderr c s)) = stderr (io_manager c) ++ s.
Proof. reflexivity. Qed.

Lemma append_assoc (a b c : string) : (a ++ b) ++ c = a ++ (b ++ c).
Proof.
  induction a as [|x a IH]; [reflexivity |].
  change (String x ((a ++ b) ++ c) = String x (a ++ (b ++ c))).
  f_equal. exact IH.
Qed.

(** ** The dispatcher *)

Section Dispatch.

Variables (self : CLI) (arg0 : string) (rest : list string).
Variables (cmd : Command) (err : PyErr) (c' : CLIContext).

(** The command token names a registered command ([for] standing for
    [fordo]), and the command raises [err], leaving the context [c']. *)
Hypothesis registered :
  commands self !! (if String.eqb arg0 "for" then "fordo" else arg0) = Some cmd.
Hypothesis raised : cmd rest (context self) = (Some err, c').

Lemma perform_command_raised :
  err_is_exception err = true ->
  _perform_command (arg0 :: rest) self =
  handle_error err
    {| context := c'; commands := commands self;
       option_parser := option_parser self;
       calls := calls self ++ [(if String.eqb arg0 "for" then "fordo" else arg0, rest)] |}.
Proof.
  intros Hexc. unfold _perform_command. run. rewrite registered.
  unfold call_command. rewrite raised. run. rewrite Hexc. reflexivity.
Qed.

Lemma perform_command_propagates :
  err_is_exception err = false ->
  _perform_command (arg0 :: rest) self =
  (Raise err,
   {| context := c'; commands := commands self;
      option_parser := option_parser self;
      calls := calls self ++ [(if String.eqb arg0 "for" then "fordo" else arg0, rest)] |}).
Proof.
  intros Hexc. unfold _perform_command. run. rewrite registered.
  unfold call_command. rewrite raised. run. rewrite Hexc. reflexivity.
Qed.

End Dispatch.







(** C6, as the code has it: a command that raises an instance of
    [Exception] with no [text] attribute makes the dispatcher write the
    trace and a newline to the error stream and return the error's
    [code] attribute when it has one, else 1. *)
Theorem textless_error_traced (self : CLI) (arg0 : string) (rest : list string)
    (cmd : Command) (err : PyErr) (c' : CLIContext) :
  commands self !! (if String.eqb arg0 "for" then "fordo" else arg0) = Some cmd ->
  cmd rest (context self) = (Some err, c') ->
  err_is_exception err = true ->
  err_text err = None ->
  (_perform_command (arg0 :: rest) self).1 = Ok (default (VInt 1) (err_code err)) /\
  stderr (io_manager (context (_perform_command (arg0 :: rest) self).2)) =
    stderr (io_manager c') ++ err_trace err ++ nl.
Proof.
  intros Hreg Hraise Hexc Htext.
  rewrite (perform_command_raised _ _ _ _ _ _ Hreg Hraise Hexc).
  unfold handle_error. rewrite Htext. run. split; [reflexivity |].
  rewrite !write_stderr_stderr, !append_assoc. reflexivity.
Qed.

Lemma textless_error_traced_witness :
  let plain := mkErr "KeyError" true None None "Traceback: KeyError" in
  let self := CLI_init (Examples.cmds (Examples.raises plain))
                (Examples.parsed [] ["get"]) in
  (_perform_command ["get"] self).1 = Ok (VInt 1) /\
  stderr (io_manager (context (_perform_command ["get"] self).2)) =
    "Traceback: KeyError" ++ nl.
Proof.
  exact (textless_error_traced
           (CLI_init (Examples.cmds (Examples.raises _)) (Examples.parsed [] ["get"]))
           "get" [] _ (mkErr "KeyError" true None None "Traceback: KeyError")
           init_context eq_refl eq_refl eq_refl eq_refl).
Defined.

(** C6 fails as stated, twice.  An [Exception] with no [text]
    attribute and a [code] attribute of 404 (as [urllib2.HTTPError]
    has) is traced, and the dispatcher returns 404, not 1.  And
    [SystemExit], which has a [code] and no [text] and is no instance
    of [Exception], is not caught at all: nothing is written and
    nothing is returned. *)
Lemma textless_error_code_counterexample :
  let http := mkErr "HTTPError" true None (Some (VInt 404)) "Traceback: HTTPError" in
  let exit := mkErr "SystemExit" false None (Some (VInt 2)) "Traceback: SystemExit" in
  let self := CLI_init (Examples.cmds (Examples.raises http))
                (Examples.parsed [] ["get"]) in
  let self' := CLI_init (Examples.cmds (Examples.raises exit))
                 (Examples.parsed [] ["get"]) in
  err_text http = None /\
  (_perform_command ["get"] self).1 = Ok (VInt 404) /\
  (_perform_command ["get"] self).1 <> Ok (VInt 1) /\
  stderr (io_manager (context (_perform_command ["get"] self).2)) =
    "Traceback: HTTPError" ++ nl /\
  (_perform_command ["get"] self').1 = Raise exit /\
  stderr (io_manager (context (_perform_command ["get"] self').2)) = EmptyString.
Proof.
  cbv zeta. split; [reflexivity |]. split; [reflexivity |].
  split; [vm_compute; discriminate |]. repeat split; reflexivity.
Qed.

(** ** Attributes *)

Lemma getattr_setattr (o : Values) (n : string) (v : pyval) :
  getattr (setattr o n v) n = v.
Proof. unfold getattr, setattr. now rewrite lookup_insert_eq. Qed.

Lemma getattr_setattr_ne (o : Values) (n m : string) (v : pyval) :
  n <> m -> getattr (setattr o n v) m = getattr o m.
Proof. intros H. unfold getattr, setattr. now rewrite lookup_insert_ne. Qed.

(** A loop over option names whose body rewrites the attribute it is
    given, by a function of that attribute's value, and no other
    attribute. *)
Section Pointwise.

Variable step : Values -> string -> Values.
Variable f : string -> pyval -> pyval.
Hypothesis step_same : forall o n, getattr (step o n) n = f n (getattr o n).
Hypothesis step_other : forall o n m, n <> m -> getattr (step o n) m = getattr o m.
Hypothesis f_idem : forall n v, f n (f n v) = f n v.

Lemma foldl_pointwise (l : list string) (o : Values) (n : string) :
  getattr (foldl step o l) n =
  if existsb (String.eqb n) l then f n (getattr o n) else getattr o n.
Proof.
  revert o. induction l as [|m l IH]; intros o; [reflexivity |].
  cbn [foldl existsb]. rewrite IH.
  destruct (String.eqb_spec n m) as [->|Hne]; cbn [orb].
  - rewrite step_same. destruct (existsb _ l); [apply f_idem | reflexivity].
  - rewrite step_other by congruence. reflexivity.
Qed.

End Pointwise.

(** ** The cascade *)

Section Cascade.

Variables (conf : gmap string (gmap string string)) (os : OS).

Lemma resolve_option_same (o : Values) (sec n : string) :
  getattr (_resolve_option conf os o n sec) n = resolved_value conf os sec n (getattr o n).
Proof.
  unfold _resolve_option, resolved_value.
  destruct (negb (is_None (getattr o n))); [reflexivity |].
  destruct (Str.startswith n (sec ++ "_")); now rewrite getattr_setattr.
Qed.

Lemma resolve_option_other (o : Values) (sec n m : string) :
  n <> m -> getattr (_resolve_option conf os o n sec) m = getattr o m.
Proof.
  intros Hne. unfold _resolve_option.
  destruct (negb (is_None (getattr o n))); [reflexivity |].
  destruct (Str.startswith n (sec ++ "_")); now rewrite getattr_setattr_ne.
Qed.

Lemma resolved_value_idem (sec n : string) (v : pyval) :
  resolved_value conf os sec n (resolved_value conf os sec n v) =
  resolved_value conf os sec n v.
Proof.
  unfold resolved_value. destruct v; try reflexivity. cbn [is_None negb].
  destruct (Str.startswith n (sec ++ "_"));
    match goal with
    | |- (if negb (is_None ?x) then _ else _) = _ => destruct (is_None x); reflexivity
    end.
Qed.

Lemma resolve_main_options_pointwise (o : Values) (n : string) :
  getattr (resolve_main_options conf os o) n =
  if existsb (String.eqb n) main_options
  then resolved_value conf os "swiftly" n (getattr o n)
  else getattr o n.
Proof.
  unfold resolve_main_options.
  apply (foldl_pointwise
           (fun o n => _resolve_option conf os o n "swiftly")
           (resolved_value conf os "swiftly")).
  - intros; apply resolve_option_same.
  - intros; now apply resolve_option_other.
  - intros; apply resolved_value_idem.
Qed.

Lemma upper_app (a b : string) : Str.upper (a ++ b) = Str.upper a ++ Str.upper b.
Proof.
  induction a as [|x a IH]; [reflexivity |].
  change (String (Str.upper_char x) (Str.upper (a ++ b)) =
          String (Str.upper_char x) (Str.upper a ++ Str.upper b)).
  f_equal. exact IH.
Qed.

Lemma resolved_value_cascade (n : string) (v : pyval) :
  Str.startswith n "swiftly_" = false ->
  resolved_value conf os "swiftly" n v = cascade conf os n v.
Proof.
  intros Hn. unfold resolved_value, cascade.
  destruct v; try reflexivity. cbn [is_None negb].
  change ("swiftly" ++ "_") with "swiftly_". rewrite Hn.
  change ("swiftly" ++ "_" ++ n) with ("swiftly_" ++ n).
  rewrite upper_app. change (Str.upper "swiftly_") with "SWIFTLY_".
  unfold dict_get.
  destruct (environ os !! ("SWIFTLY_" ++ Str.upper n)); [reflexivity |].
  destruct (conf !! "swiftly") as [sec|]; cbn; [|reflexivity].
  destruct (sec !! n); reflexivity.
Qed.

Lemma main_options_not_prefixed (n : string) :
  n ∈ main_options -> Str.startswith n "swiftly_" = false.
Proof.
  intros H. unfold main_options in H.
  repeat (apply elem_of_cons in H as [->|H]; [reflexivity |]).
  now apply elem_of_nil in H.
Qed.

Lemma main_options_existsb (n : string) :
  n ∈ main_options -> existsb (String.eqb n) main_options = true.
Proof.
  intros H. apply existsb_exists. exists n. split.
  - now apply list_elem_of_In.
  - apply String.eqb_refl.
Qed.

Lemma resolve_main_options_cascade (o : Values) (n : string) :
  n ∈ main_options ->
  getattr (resolve_main_options conf os o) n = cascade conf os n (getattr o n).
Proof.
  intros H. rewrite resolve_main_options_pointwise, main_options_existsb by exact H.
  apply resolved_value_cascade. now apply main_options_not_prefixed.
Qed.

End Cascade.

(** ** Conversions and defaults *)

Lemma coerce_flag_same (o : Values) (n : string) :
  getattr (coerce_flag o n) n = flag_converted (getattr o n).
Proof.
  unfold coerce_flag, flag_converted.
  destruct (getattr o n) eqn:E; rewrite ?getattr_setattr, ?E; reflexivity.
Qed.

Lemma coerce_flag_other (o : Values) (n m : string) :
  n <> m -> getattr (coerce_flag o n) m = getattr o m.
Proof.
  intros Hne. unfold coerce_flag.
  destruct (getattr o n); rewrite ?getattr_setattr_ne by exact Hne; reflexivity.
Qed.

Lemma coerce_flags_pointwise (o : Values) (n : string) :
  getattr (foldl coerce_flag o flag_options) n =
  if existsb (String.eqb n) flag_options then flag_converted (getattr o n)
  else getattr o n.
Proof.
  apply (foldl_pointwise coerce_flag (fun _ => flag_converted)).
  - apply coerce_flag_same.
  - apply coerce_flag_other.
  - intros _ [| | |]; reflexivity.
Qed.

Lemma coerce_int_converted (o : Values) (n : string) :
  coerce_int o n =
  match int_converted (getattr o n) with
  | Ok v => Ok (if is_basestring (getattr o n) then setattr o n v else o)
  | Raise e => Raise e
  end.
Proof.
  unfold coerce_int, int_converted, int.
  destruct (getattr o n) as [| | |s]; try reflexivity.
  cbn [is_basestring]. destruct (Str.to_int s); reflexivity.
Qed.

Lemma coerce_int_same (o o' : Values) (n : string) :
  coerce_int o n = Ok o' -> int_converted (getattr o n) = Ok (getattr o' n).
Proof.
  rewrite coerce_int_converted.
  destruct (int_converted (getattr o n)) as [v|e] eqn:E; [|discriminate].
  intros [= <-]. destruct (getattr o n) eqn:Ea; cbn [is_basestring].
  1-3: rewrite Ea; cbn in E; congruence.
  now rewrite getattr_setattr.
Qed.

Lemma coerce_int_other (o o' : Values) (n m : string) :
  coerce_int o n = Ok o' -> n <> m -> getattr o' m = getattr o m.
Proof.
  rewrite coerce_int_converted.
  destruct (int_converted (getattr o n)) as [v|e]; [|discriminate].
  intros [= <-] Hne. destruct (is_basestring _); [|reflexivity].
  now apply getattr_setattr_ne.
Qed.

Lemma default_to_pointwise (m : string) (d : pyval) (o : Values) (n : string) :
  getattr (default_to m d o) n =
  if String.eqb n m then defaulted d (getattr o n) else getattr o n.
Proof.
  unfold default_to, defaulted.
  destruct (String.eqb_spec n m) as [->|Hne].
  - destruct (getattr o m) eqn:E; cbn [is_None]; rewrite ?getattr_setattr, ?E; reflexivity.
  - destruct (is_None (getattr o m)); [|reflexivity].
    apply getattr_setattr_ne. congruence.
Qed.

Ltac case_name n :=
  repeat match goal with
         | |- context [String.eqb n ?m] =>
             destruct (String.eqb_spec n m) as [->|?]
         end.

Lemma apply_defaults_pointwise (o : Values) (n : string) :
  getattr (apply_defaults o) n = defaulted (builtin_default n) (getattr o n).
Proof.
  unfold apply_defaults. rewrite !default_to_pointwise.
  unfold builtin_default, flag_options. cbn [existsb].
  case_name n; try reflexivity; destruct (getattr o _); reflexivity.
Qed.

Lemma final_value_int (n : string) (v : pyval) :
  existsb (String.eqb n) flag_options = false ->
  existsb (String.eqb n) int_options = true ->
  final_value n v =
  match int_converted v with
  | Ok w => Ok (defaulted (builtin_default n) w)
  | Raise e => Raise e
  end.
Proof.
  intros Hf Hi. unfold final_value. rewrite Hf, Hi.
  destruct v as [| | |s]; try reflexivity.
  cbn [int_converted]. destruct (Str.to_int s); reflexivity.
Qed.

(** ** The resolved options *)

Section Resolved.

Variables (conf : gmap string (gmap string string)) (os : OS) (o : Values).

Let raw := resolve_main_options conf os o.
Let flagged := foldl coerce_flag raw flag_options.

Lemma flagged_int_option (n : string) :
  existsb (String.eqb n) flag_options = false -> getattr flagged n = getattr raw n.
Proof. intros H. unfold flagged. now rewrite coerce_flags_pointwise, H. Qed.

Lemma resolve_options_unfold :
  resolve_options conf os o =
  match coerce_int flagged "retries" with
  | Ok o1 =>
      match coerce_int o1 "concurrency" with
      | Ok o2 => Ok (apply_defaults o2)
      | Raise e => Raise e
      end
  | Raise e => Raise e
  end.
Proof.
  unfold resolve_options. fold raw. fold flagged. cbn [for_each int_options].
  destruct (coerce_int flagged "retries"); [|reflexivity].
  destruct (coerce_int _ "concurrency"); reflexivity.
Qed.

(** Every attribute of the resolved options is the typed value of what
    the cascade gave. *)
Lemma resolve_options_ok (o' : Values) (n : string) :
  resolve_options conf os o = Ok o' ->
  Ok (getattr o' n) = final_value n (getattr raw n).
Proof.
  rewrite resolve_options_unfold.
  destruct (coerce_int flagged "retries") as [o1|] eqn:E1; [|discriminate].
  destruct (coerce_int o1 "concurrency") as [o2|] eqn:E2; [|discriminate].
  intros [= <-]. rewrite apply_defaults_pointwise.
  pose proof (coerce_int_same _ _ _ E1) as R1.
  pose proof (coerce_int_same _ _ _ E2) as R2.
  rewrite (coerce_int_other _ _ _ "concurrency" E1) in R2 by discriminate.
  rewrite flagged_int_option in R1, R2 by reflexivity.
  destruct (String.eqb_spec n "retries") as [->|Hr].
  { rewrite (coerce_int_other _ _ _ "retries" E2) by discriminate.
    rewrite final_value_int, R1 by reflexivity. reflexivity. }
  destruct (String.eqb_spec n "concurrency") as [->|Hc].
  { rewrite final_value_int, R2 by reflexivity. reflexivity. }
  rewrite (coerce_int_other _ _ _ n E2), (coerce_int_other _ _ _ n E1) by congruence.
  unfold flagged. rewrite coerce_flags_pointwise.
  unfold final_value, builtin_default, flag_options, int_options. cbn [existsb].
  clear R1 R2.
  case_name n; try congruence; cbn [orb];
    match goal with
    | |- context [getattr raw ?m] => destruct (getattr raw m); reflexivity
    end.
Qed.


(** It does raise on one: the error is the [ValueError] of a malformed
    literal. *)
Lemma resolve_options_malformed (n s : string) :
  n ∈ int_options -> getattr raw n = VStr s -> Str.to_int s = None ->
  exists bad, Str.to_int bad = None /\
    resolve_options conf os o =
    Raise (ValueError ("invalid literal for int() with base 10: " ++ Repr.repr bad)).
Proof.
  intros Hn Hraw Hbad. rewrite resolve_options_unfold.
  assert (int_converted (VStr s) =
          Raise (ValueError ("invalid literal for int() with base 10: " ++ Repr.repr s)))
    as Hs by (cbn [int_converted]; now rewrite Hbad).
  destruct (coerce_int flagged "retries") as [o1|e1] eqn:E1.
  - apply elem_of_cons in Hn as [->|Hn].
    { rewrite coerce_int_converted, flagged_int_option, Hraw, Hs in E1 by reflexivity.
      discriminate. }
    apply elem_of_cons in Hn as [->|Hn]; [|now apply elem_of_nil in Hn].
    exists s. split; [exact Hbad |].
    rewrite coerce_int_converted.
    rewrite (coerce_int_other _ _ _ "concurrency" E1) by discriminate.
    rewrite flagged_int_option, Hraw, Hs by reflexivity. reflexivity.
  - rewrite coerce_int_converted, flagged_int_option in E1 by reflexivity.
    destruct (getattr raw "retries") as [| | |r]; try discriminate.
    cbn [int_converted] in E1.
    destruct (Str.to_int r) eqn:Er; [discriminate |].
    injection E1 as <-. exists r. split; [exact Er | reflexivity].
Qed.

(** After the resolution the integer options hold no string and no
    [None], so [int()] takes them. *)
Lemma resolved_int_option (o' : Values) (n : string) :
  n ∈ int_options -> resolve_options conf os o = Ok o' ->
  exists z, int (getattr o' n) = Ok z.
Proof.
  intros Hn Hok. pose proof (resolve_options_ok o' n Hok) as H.
  assert (existsb (String.eqb n) flag_options = false /\
          existsb (String.eqb n) int_options = true /\
          exists d, builtin_default n = VInt d) as (Hf & Hi & d & Hd).
  { apply elem_of_cons in Hn as [->|Hn]; [repeat split; now exists 4 |].
    apply elem_of_cons in Hn as [->|Hn]; [repeat split; now exists 1 |].
    now apply elem_of_nil in Hn. }
  rewrite final_value_int in H by assumption. rewrite Hd in H.
  destruct (getattr raw n) as [|b|z|s]; cbn in H.
  - injection H as ->. now exists d.
  - injection H as ->. now exists (if b then 1 else 0).
  - injection H as ->. now exists z.
  - destruct (Str.to_int s) as [z|]; [|discriminate].
    injection H as ->. now exists z.
Qed.

End Resolved.

(** ** The order of the sources *)



Example cascade_example :
  let resolved :=
    resolve_options CascadeExample.conf CascadeExample.os CascadeExample.options in
  (fun o => (getattr o "auth_url", getattr o "snet", getattr o "retries",
             getattr o "region", getattr o "concurrency", getattr o "proxy"))
    <$> (match resolved with Ok o => Some o | Raise _ => None end)
  = Some (VStr "http://cli", VBool true, VInt 7, VStr "DFW", VInt 1, VNone).
Proof. vm_compute. reflexivity. Qed.

(** ** From the command line to the choice of the client *)

Section Accepted.

Variables (self : CLI) (os : OS) (args : option (list string)).
Variables (parsed : Values) (rest : list string) (path : string).
Hypothesis Haccepted : accepted self os args parsed rest path.

Lemma parse_main_options_accepted :
  parse_main_options os args self =
  (match resolve_options (load_conf os path) os (conf_option os parsed) with
   | Ok options => Ok (Some (options, rest))
   | Raise e => Raise e
   end, parsed_state self os args rest path).
Proof.
  destruct Haccepted as (Hparse & Hversion & Hhelp & Hrest & Hpath).
  unfold parse_main_options. run. rewrite Hparse, Hversion, Hhelp.
  rewrite bool_decide_eq_false_2 by exact Hrest. cbn [orb]. run.
  rewrite Hpath. cbn [conf set_conf].
  destruct (resolve_options (load_conf os path) os (conf_option os parsed));
    reflexivity.
Qed.

Lemma configure_select (options : Values) (retries : Z) (s : CLI) :
  int (getattr options "retries") = Ok retries ->
  configure os options rest s =
  select_client os (setattr options "retries" (VInt retries)) retries rest
    (configured os options s).
Proof.
  intros Hint. unfold configure, configured. run.
  destruct (truthy (getattr options "verbose")); run; rewrite Hint; reflexivity.
Qed.

Lemma parse_args_malformed (e : PyErr) :
  resolve_options (load_conf os path) os (conf_option os parsed) = Raise e ->
  _parse_args os args self = (Raise e, parsed_state self os args rest path).
Proof.
  intros H. unfold _parse_args. run.
  now rewrite parse_main_options_accepted, H.
Qed.

Lemma parse_args_resolved (options : Values) :
  resolve_options (load_conf os path) os (conf_option os parsed) = Ok options ->
  exists retries concurrency,
    int (getattr options "retries") = Ok retries /\
    int (getattr options "concurrency") = Ok concurrency /\
    _parse_args os args self =
    select_client os (setattr options "retries" (VInt retries)) retries rest
      (configured os options (parsed_state self os args rest path)).
Proof.
  intros H.
  destruct (resolved_int_option _ _ _ options "retries"
              ltac:(repeat constructor) H) as [retries Hr].
  destruct (resolved_int_option _ _ _ options "concurrency"
              ltac:(repeat constructor) H) as [concurrency Hc].
  exists retries, concurrency. split; [exact Hr |]. split; [exact Hc |].
  unfold _parse_args. run. rewrite parse_main_options_accepted, H.
  now apply configure_select.
Qed.

End Accepted.

(** ** The choice of the client *)

Lemma finish_parse_ok (options : Values) (args : list string) (z : Z) (s : CLI) :
  int (getattr options "concurrency") = Ok z ->
  finish_parse options args s =
  (Ok (Some (options, args)),
   {| context := set_concurrency (set_cdn (context s) (getattr options "cdn")) z;
      commands := commands s; option_parser := option_parser s;
      calls := calls s |}).
Proof. intros H. unfold finish_parse. run. rewrite H. reflexivity. Qed.

Lemma configured_eventlet (os : OS) (options : Values) (s : CLI) :
  eventlet (context (configured os options s)) = Some (choose_eventlet os options).
Proof.
  unfold configured. destruct (truthy (getattr options "verbose")); reflexivity.
Qed.

(** Resolving and configuring leaves the client manager, the error
    stream, the commands and the call history as they were. *)
Lemma configured_frame (self : CLI) (os : OS) (args : option (list string))
    (rest : list string) (path : string) (options : Values) :
  let s := configured os options (parsed_state self os args rest path) in
  client_manager (context s) = client_manager (context self) /\
  stderr (io_manager (context s)) = stderr (io_manager (context self)) /\
  commands s = commands self /\
  calls s = calls self /\
  conf (context s) = load_conf os path.
Proof.
  unfold configured.
  destruct (truthy (getattr options "verbose")); repeat split; reflexivity.
Qed.

Ltac project :=
  cbn [fst snd context commands option_parser calls client_manager io_manager
       stderr cdn concurrency conf eventlet verbose verbosity
       set_concurrency set_cdn set_client_manager write_stderr set_io_manager].

Ltac read_options :=
  repeat rewrite getattr_setattr_ne by discriminate.

(** The Standard client, as it is constructed when it is the one
    chosen. *)
Lemma standard_client_built (self : CLI) (os : OS) (args : option (list string))
    (parsed : Values) (rest : list string) (path : string) (options : Values) :
  accepted self os args parsed rest path ->
  resolve_options (load_conf os path) os (conf_option os parsed) = Ok options ->
  is_help rest = false ->
  truthy (getattr options "local") = false ->
  truthy (getattr options "direct") = false ->
  truthy (getattr options "auth_url") = true ->
  exists retries, int (getattr options "retries") = Ok retries /\
    client_manager (context (_parse_args os args self).2) =
    Some (StandardClient (getattr options "auth_methods") (getattr options "auth_url")
            (getattr options "auth_tenant") (getattr options "auth_user")
            (getattr options "auth_key") (auth_cache_path_of os options)
            (getattr options "region") (getattr options "snet")
            (retries + 1) (choose_eventlet os options) (getattr options "proxy")).
Proof.
  intros Hacc Hres Hhelp Hlocal Hdirect Hauth.
  destruct (parse_args_resolved _ _ _ _ _ _ Hacc _ Hres)
    as (retries & concurrency & Hr & Hc & Hparse).
  exists retries. split; [exact Hr |].
  assert (int (getattr (setattr options "retries" (VInt retries)) "concurrency")
          = Ok concurrency) as Hc' by (now read_options).
  rewrite Hparse. unfold select_client, auth_cache_path_of.
  rewrite Hhelp. read_options. rewrite Hlocal, Hdirect, Hauth. run. rewrite (finish_parse_ok _ _ _ _ Hc').
  project. now rewrite configured_eventlet.
Qed.

(** C3, as the code has it: once the options are resolved and the
    command is not [help], exactly one of four things happens, tried in
    this order.  A local path that is not empty gives the Local client,
    whatever the direct path is; else a direct path that is not empty
    gives the Direct client; else an auth URL that is not empty gives
    the Standard client; else no client is constructed.  An option
    resolved to the empty string counts as not set. *)
Theorem backend_selection_order (self : CLI) (os : OS) (args : option (list string))
    (parsed : Values) (rest : list string) (path : string) (options : Values) :
  accepted self os args parsed rest path ->
  resolve_options (load_conf os path) os (conf_option os parsed) = Ok options ->
  is_help rest = false ->
  let result := _parse_args os args self in
  let built := client_manager (context result.2) in
  let local := getattr options "local" in
  let direct := getattr options "direct" in
  let auth_url := getattr options "auth_url" in
  exists retries, int (getattr options "retries") = Ok retries /\
  (truthy local = true -> built = Some (LocalClient local)) /\
  (truthy local = false -> truthy direct = true ->
   built = Some (DirectClient direct (retries + 1) (choose_eventlet os options)
                   (getattr options "direct_object_ring"))) /\
  (truthy local = false -> truthy direct = false -> truthy auth_url = true ->
   built = Some (StandardClient (getattr options "auth_methods") auth_url
                   (getattr options "auth_tenant") (getattr options "auth_user")
                   (getattr options "auth_key") (auth_cache_path_of os options)
                   (getattr options "region") (getattr options "snet")
                   (retries + 1) (choose_eventlet os options)
                   (getattr options "proxy"))) /\
  (truthy local = false -> truthy direct = false -> truthy auth_url = false ->
   built = client_manager (context self) /\ result.1 = Ok None).
Proof.
  intros Hacc Hres Hhelp result built local direct auth_url.
  destruct (parse_args_resolved _ _ _ _ _ _ Hacc _ Hres)
    as (retries & concurrency & Hr & Hc & Hparse).
  exists retries. split; [exact Hr |].
  assert (int (getattr (setattr options "retries" (VInt retries)) "concurrency")
          = Ok concurrency) as Hc' by (now read_options).
  subst built result. rewrite Hparse. unfold select_client, auth_cache_path_of.
  rewrite Hhelp. read_options. fold local direct auth_url.
  split; [|split; [|split]].
  - intros ->. run. rewrite (finish_parse_ok _ _ _ _ Hc'). reflexivity.
  - intros -> ->. run. rewrite (finish_parse_ok _ _ _ _ Hc').
    project. now rewrite configured_eventlet.
  - intros -> -> ->. run. rewrite (finish_parse_ok _ _ _ _ Hc').
    project. now rewrite configured_eventlet.
  - intros -> -> ->. run.
    split; [|reflexivity]. project. apply configured_frame.
Qed.

Lemma resolved_of_ok (os : OS) (parsed : Values) (path : string) :
  resolves os parsed path = true ->
  resolve_options (load_conf os path) os (conf_option os parsed)
  = Ok (resolved_of os parsed path).
Proof.
  unfold resolves, resolved_of.
  destruct (resolve_options _ _ _); [reflexivity | discriminate].
Qed.

Lemma backend_selection_order_witness :
  accepted BackendExample.self Examples.os0 (Some BackendExample.args)
    (list_to_map BackendExample.parsed) ["get"; "c"] "~/.swiftly.conf" /\
  is_help ["get"; "c"] = false /\
  client_manager
    (context (_parse_args Examples.os0 (Some BackendExample.args)
                BackendExample.self).2)
  = Some (LocalClient (VStr "/srv/fake")).
Proof.
  assert (accepted BackendExample.self Examples.os0 (Some BackendExample.args)
            (list_to_map BackendExample.parsed) ["get"; "c"] "~/.swiftly.conf")
    as Hacc.
  { unfold accepted.
    split; [reflexivity |]. split; [reflexivity |]. split; [reflexivity |].
    split; [discriminate | reflexivity]. }
  assert (resolves Examples.os0 (list_to_map BackendExample.parsed) "~/.swiftly.conf"
          = true) as Hres by (vm_compute; reflexivity).
  apply resolved_of_ok in Hres.
  split; [exact Hacc |]. split; [reflexivity |].
  destruct (backend_selection_order _ _ _ _ _ _ _ Hacc Hres eq_refl)
    as (retries & _ & Hlocal & _).
  exact (Hlocal eq_refl).
Defined.

(** C3 fails as stated: with the local path option present but empty
    and a direct path, the Direct client is constructed, not the Local
    one. *)
Lemma empty_local_counterexample :
  let options :=
    resolved_of Examples.os0 (list_to_map BackendExample.empty_local)
      "~/.swiftly.conf" in
  getattr options "local" = VStr EmptyString /\
  is_None (getattr options "local") = false /\
  client_manager
    (context (_parse_args Examples.os0 (Some BackendExample.args)
                BackendExample.self_empty_local).2)
  = Some (DirectClient (VStr "/v1/AUTH_test") 5 false VNone).
Proof. vm_compute. repeat split; reflexivity. Qed.

(** ** No auth URL *)

(** C4, as the code has it: once the options are resolved and the
    command is not [help], with neither a local nor a direct path and
    no auth URL, the invocation writes the message "No Auth URL has
    been given." to the error stream and returns 1; no client manager
    is constructed and no command is called. *)
Theorem no_auth_url_fails (self : CLI) (os : OS) (args : option (list string))
    (parsed : Values) (rest : list string) (path : string) (options : Values) :
  accepted self os args parsed rest path ->
  resolve_options (load_conf os path) os (conf_option os parsed) = Ok options ->
  is_help rest = false ->
  truthy (getattr options "local") = false ->
  truthy (getattr options "direct") = false ->
  truthy (getattr options "auth_url") = false ->
  let result := __call__ os args self in
  result.1 = Ok (VInt 1) /\
  stderr (io_manager (context result.2)) =
    stderr (io_manager (context self)) ++ "No Auth URL has been given." ++ nl /\
  client_manager (context result.2) = client_manager (context self) /\
  calls result.2 = calls self.
Proof.
  intros Hacc Hres Hhelp Hlocal Hdirect Hauth result.
  destruct (parse_args_resolved _ _ _ _ _ _ Hacc _ Hres)
    as (retries & concurrency & _ & _ & Hparse).
  subst result. unfold __call__. run. rewrite Hparse.
  unfold select_client. rewrite Hhelp. read_options.
  rewrite Hlocal, Hdirect, Hauth. run. project.
  destruct (configured_frame self os args rest path options)
    as (Hcm & Herr & _ & Hcalls & _).
  rewrite Hcm, Herr, Hcalls. repeat split; reflexivity.
Qed.

Lemma no_auth_url_fails_witness :
  accepted NoAuthExample.self Examples.os0 (Some ["get"; "c"]) ∅ ["get"; "c"]
    "~/.swiftly.conf" /\
  Examples.observe (__call__ Examples.os0 (Some ["get"; "c"]) NoAuthExample.self)
  = (Ok (VInt 1), None, "No Auth URL has been given." ++ nl, []).
Proof.
  assert (accepted NoAuthExample.self Examples.os0 (Some ["get"; "c"]) ∅
            ["get"; "c"] "~/.swiftly.conf") as Hacc.
  { unfold accepted.
    split; [reflexivity |]. split; [reflexivity |]. split; [reflexivity |].
    split; [discriminate | reflexivity]. }
  assert (resolves Examples.os0 ∅ "~/.swiftly.conf" = true) as Hres
    by (vm_compute; reflexivity).
  apply resolved_of_ok in Hres.
  split; [exact Hacc |].
  destruct (no_auth_url_fails _ _ _ _ _ _ _ Hacc Hres eq_refl
              ltac:(vm_compute; reflexivity) ltac:(vm_compute; reflexivity)
              ltac:(vm_compute; reflexivity)) as (H1 & H2 & H3 & H4).
  unfold Examples.observe. rewrite H1, H2, H3, H4. reflexivity.
Defined.

(** C4 fails as stated, twice.  With no local path, no direct path and
    no auth URL anywhere, [swiftly help] returns 0 and the help command
    is called; and with SWIFTLY_CONCURRENCY=x, [swiftly get c] writes
    no message and returns nothing: the [ValueError] of the integer
    conversion leaves [CLI.__call__]. *)
Lemma no_auth_url_counterexample :
  let options := resolve_main_options ∅ Examples.os0 (conf_option Examples.os0 ∅) in
  let options' :=
    resolve_main_options ∅ ConcurrencyExample.os (conf_option ConcurrencyExample.os ∅) in
  (getattr options "local", getattr options "direct", getattr options "auth_url")
    = (VNone, VNone, VNone) /\
  Examples.observe (__call__ Examples.os0 (Some ["help"]) HelpExample.self)
    = (Ok (VInt 0), None, EmptyString, [("help", [])]) /\
  (getattr options' "local", getattr options' "direct", getattr options' "auth_url")
    = (VNone, VNone, VNone) /\
  Examples.observe (__call__ ConcurrencyExample.os (Some ["get"; "c"]) NoAuthExample.self)
    = (Raise (ValueError "invalid literal for int() with base 10: 'x'"),
       None, EmptyString, []).
Proof. vm_compute. repeat split; reflexivity. Qed.

(** ** The auth cache *)

(** C9, as the code has it: when the Standard client is chosen and
    [cache_auth] is on, the auth cache path given to it is the
    temporary directory joined with the value of the environment
    variable USER (or [user]) followed by [.swiftly]. *)
Theorem auth_cache_path_swiftly (self : CLI) (os : OS) (args : option (list string))
    (parsed : Values) (rest : list string) (path : string) (options : Values) :
  accepted self os args parsed rest path ->
  resolve_options (load_conf os path) os (conf_option os parsed) = Ok options ->
  is_help rest = false ->
  truthy (getattr options "local") = false ->
  truthy (getattr options "direct") = false ->
  truthy (getattr options "auth_url") = true ->
  truthy (getattr options "cache_auth") = true ->
  exists retries, int (getattr options "retries") = Ok retries /\
    client_manager (context (_parse_args os args self).2) =
    Some (StandardClient (getattr options "auth_methods") (getattr options "auth_url")
            (getattr options "auth_tenant") (getattr options "auth_user")
            (getattr options "auth_key")
            (VStr (path_join (gettempdir os)
                     (default "user" (environ os !! "USER") ++ ".swiftly")))
            (getattr options "region") (getattr options "snet")
            (retries + 1) (choose_eventlet os options) (getattr options "proxy")).
Proof.
  intros Hacc Hres Hhelp Hlocal Hdirect Hauth Hcache.
  destruct (standard_client_built _ _ _ _ _ _ _ Hacc Hres Hhelp Hlocal Hdirect Hauth)
    as (retries & Hretries & Hstandard).
  exists retries. split; [exact Hretries |]. rewrite Hstandard.
  unfold auth_cache_path_of, dict_get. rewrite Hcache.
  destruct (environ os !! "USER"); reflexivity.
Qed.

Lemma auth_cache_path_swiftly_witness :
  accepted CacheExample.self CacheExample.os (Some CacheExample.args)
    (list_to_map CacheExample.parsed) ["get"; "c"] "~/.swiftly.conf" /\
  client_manager
    (context (_parse_args CacheExample.os (Some CacheExample.args)
                CacheExample.self).2) =
  Some (StandardClient VNone (VStr "http://auth") VNone VNone VNone
          (VStr "/tmp/alice.swiftly") VNone (VBool false) 5 false VNone).
Proof.
  assert (accepted CacheExample.self CacheExample.os (Some CacheExample.args)
            (list_to_map CacheExample.parsed) ["get"; "c"] "~/.swiftly.conf")
    as Hacc.
  { unfold accepted.
    split; [reflexivity |]. split; [reflexivity |]. split; [reflexivity |].
    split; [discriminate | reflexivity]. }
  assert (resolves CacheExample.os (list_to_map CacheExample.parsed)
            "~/.swiftly.conf" = true) as Hres by (vm_compute; reflexivity).
  apply resolved_of_ok in Hres.
  split; [exact Hacc |].
  destruct (auth_cache_path_swiftly _ _ _ _ _ _ _ Hacc Hres eq_refl
              ltac:(vm_compute; reflexivity) ltac:(vm_compute; reflexivity)
              ltac:(vm_compute; reflexivity) ltac:(vm_compute; reflexivity))
    as (retries & Hretries & H).
  rewrite H. vm_compute in Hretries. injection Hretries as <-.
  vm_compute. reflexivity.
Defined.

(** C9 fails as stated: the file is named [alice.swiftly], not
    [alice.clientcache]. *)
Lemma auth_cache_suffix_counterexample :
  let built :=
    client_manager
      (context (_parse_args CacheExample.os (Some CacheExample.args)
                  CacheExample.self).2) in
  built = Some (StandardClient VNone (VStr "http://auth") VNone VNone VNone
                  (VStr "/tmp/alice.swiftly") VNone (VBool false) 5 false VNone) /\
  VStr "/tmp/alice.swiftly" <>
    VStr (path_join (gettempdir CacheExample.os) ("alice" ++ ".clientcache")).
Proof. vm_compute. split; [reflexivity | discriminate]. Qed.

(** ** Help *)

Lemma copy_sections_readable (good : list (string * list (string * string)))
    (rest : list (string * option (list (string * string))))
    (c : gmap string (gmap string string)) :
  copy_sections (((fun p => (p.1, Some p.2)) <$> good) ++ rest) c =
  copy_sections rest
    (foldl (fun d kv => <[kv.1 := kv.2]> d) c
       ((fun p => (p.1, dict_of_items p.2)) <$> good)).
Proof.
  revert c. induction good as [|[name items] good IH]; intros c; [reflexivity |].
  cbn [fmap list_fmap app copy_sections foldl fst snd]. apply IH.
Qed.

(** C7, as the code has it: when the first remaining argument is
    [help] and the options resolve, no client manager is constructed
    and the help command is called; if it returns normally the
    invocation returns 0.  Nothing is asked of the auth URL or of the
    configuration file, whose store is kept in the context: it is empty
    for a file that cannot be parsed or cannot be opened, and when the
    items of a section cannot be read it holds the sections before that
    one. *)
Theorem help_bypasses_backend (self : CLI) (os : OS) (args : option (list string))
    (parsed : Values) (rest : list string) (path : string) (options : Values)
    (help : Command) :
  accepted self os args parsed ("help" :: rest) path ->
  resolve_options (load_conf os path) os (conf_option os parsed) = Ok options ->
  commands self !! "help" = Some help ->
  (forall c, (help rest c).1 = None) ->
  let before := _parse_args os args self in
  let result := __call__ os args self in
  result.1 = Ok (VInt 0) /\
  calls result.2 = (calls self ++ [("help", rest)])%list /\
  client_manager (context before.2) = client_manager (context self) /\
  stderr (io_manager (context before.2)) = stderr (io_manager (context self)) /\
  conf (context before.2) = load_conf os path /\
  (files os (expanduser os path) = ConfUnparsable \/
   files os (expanduser os path) = ConfSections [] ->
   conf (context before.2) = ∅) /\
  (forall good bad later,
     files os (expanduser os path) =
       ConfSections (((fun p => (p.1, Some p.2)) <$> good) ++ (bad, None) :: later) ->
     conf (context before.2) =
       copy_sections ((fun p => (p.1, Some p.2)) <$> good) ∅).
Proof.
  intros Hacc Hres Hcmd Hhelp before result.
  destruct (parse_args_resolved _ _ _ _ _ _ Hacc _ Hres)
    as (retries & concurrency & _ & _ & Hparse).
  destruct (configured_frame self os args ("help" :: rest) path options)
    as (Hcm & Herr & Hcommands & Hcalls & Hconf).
  assert (before =
          (Ok (Some (setattr options "retries" (VInt retries), "help" :: rest)),
           configured os options (parsed_state self os args ("help" :: rest) path)))
    as Hbefore by (subst before; rewrite Hparse; reflexivity).
  subst result. unfold __call__. run. fold before. rewrite Hbefore.
  unfold _perform_command. run.
  change (if String.eqb "help" "for" then "fordo" else "help") with "help".
  rewrite Hcommands, Hcmd. unfold call_command.
  match goal with
  | |- context [help rest ?c0] =>
      pose proof (Hhelp c0) as Hnone; destruct (help rest c0) as [r c]
  end.
  cbn [fst] in Hnone. subst r.
  project. rewrite Hcalls, Hcm, Herr, Hconf.
  split; [reflexivity |]. split; [reflexivity |]. split; [reflexivity |].
  split; [reflexivity |]. split; [reflexivity |]. split.
  - intros [H|H]; unfold load_conf; rewrite H; reflexivity.
  - intros good bad later H. unfold load_conf. rewrite H.
    rewrite copy_sections_readable. cbn [copy_sections]. symmetry.
    rewrite <- (app_nil_r ((fun p => (p.1, Some p.2)) <$> good)).
    apply copy_sections_readable.
Qed.

Lemma help_bypasses_backend_witness :
  accepted HelpExample.self HelpExample.os (Some ["help"]) ∅ ["help"]
    "~/.swiftly.conf" /\
  files HelpExample.os (expanduser HelpExample.os "~/.swiftly.conf") = ConfUnparsable /\
  getattr (resolved_of HelpExample.os ∅ "~/.swiftly.conf") "auth_url" = VNone /\
  (__call__ HelpExample.os (Some ["help"]) HelpExample.self).1 = Ok (VInt 0) /\
  client_manager
    (context (_parse_args HelpExample.os (Some ["help"]) HelpExample.self).2) = None /\
  conf (context (_parse_args HelpExample.os (Some ["help"]) HelpExample.self).2) = ∅.
Proof.
  assert (accepted HelpExample.self HelpExample.os (Some ["help"]) ∅ ["help"]
            "~/.swiftly.conf") as Hacc.
  { unfold accepted.
    split; [reflexivity |]. split; [reflexivity |]. split; [reflexivity |].
    split; [discriminate | reflexivity]. }
  assert (resolves HelpExample.os ∅ "~/.swiftly.conf" = true) as Hres
    by (vm_compute; reflexivity).
  apply resolved_of_ok in Hres.
  split; [exact Hacc |]. split; [reflexivity |].
  split; [vm_compute; reflexivity |].
  destruct (help_bypasses_backend _ _ _ _ _ _ _ Examples.succeeds Hacc Hres
              eq_refl (fun _ => eq_refl)) as (H1 & _ & H3 & _ & _ & H5 & _).
  split; [exact H1 |]. split; [exact H3 |].
  apply H5. left. reflexivity.
Defined.

(** C7 fails as stated, twice.  With [retries = abc] in the section
    [swiftly] of the configuration file, [swiftly help] does not return
    0: the integer conversion comes before the test for [help] and its
    [ValueError] leaves [CLI.__call__].  And a file whose second
    section cannot be interpolated does not give an empty store: the
    first section stays in it. *)
Lemma help_counterexample :
  (__call__ BadRetriesExample.os (Some ["help"]) HelpExample.self).1
    = Raise (ValueError "invalid literal for int() with base 10: 'abc'") /\
  (__call__ BadRetriesExample.os (Some ["help"]) HelpExample.self).1 <> Ok (VInt 0) /\
  calls (__call__ BadRetriesExample.os (Some ["help"]) HelpExample.self).2 = [] /\
  (__call__ PartialConfExample.os (Some ["help"]) HelpExample.self).1 = Ok (VInt 0) /\
  conf (context (__call__ PartialConfExample.os (Some ["help"]) HelpExample.self).2)
    !! "first" ≫= (fun sec => sec !! "a") = Some "1" /\
  conf (context (__call__ PartialConfExample.os (Some ["help"]) HelpExample.self).2)
    <> ∅.
Proof.
  split; [vm_compute; reflexivity |]. split; [vm_compute; discriminate |].
  split; [vm_compute; reflexivity |]. split; [vm_compute; reflexivity |].
  split; [vm_compute; reflexivity |].
  apply (bool_decide_eq_false_1 _). vm_compute; reflexivity.
Qed.

(** ** Malformed integers *)




(** ** Negated flags *)

(** The Eventlet pair is the one whose negative half is read: a truthy
    [no_eventlet] turns Eventlet off, whatever [eventlet] is. *)
Lemma no_eventlet_overrides (os : OS) (options : Values) :
  truthy (getattr options "no_eventlet") = true ->
  choose_eventlet os options = false.
Proof.
  intros H. unfold choose_eventlet. rewrite H.
  destruct (truthy (getattr options "eventlet")); reflexivity.
Qed.

(** C2 at a failing input: the four negative halves resolve to true,
    and yet the Standard client is given [snet=True] and an auth cache
    path, the context gets [cdn=True] and the verbosity is 1. *)
Theorem negative_halves_ignored :
  let options :=
    resolved_of NegationExample.os (list_to_map NegationExample.parsed)
      "~/.swiftly.conf" in
  let after :=
    context (_parse_args NegationExample.os (Some NegationExample.args)
               NegationExample.self).2 in
  (getattr options "no_snet", getattr options "no_cache_auth",
   getattr options "no_cdn", getattr options "no_verbose")
    = (VBool true, VBool true, VBool true, VBool true) /\
  client_manager after =
    Some (StandardClient VNone (VStr "http://auth") VNone VNone VNone
            (VStr "/tmp/user.swiftly") VNone (VBool true) 5 false VNone) /\
  cdn after = Some (VBool true) /\
  verbosity after = Some 1.
Proof. vm_compute. repeat split; reflexivity. Qed.

(** ** The model on small inputs *)

Example to_int_examples :
  map Str.to_int ["4"; " -12 "; "+7"; "abc"; "12a"; "1 2"; "- 3"; "   "]
  = [Some 4; Some (-12); Some 7; None; None; None; None; None].
Proof. reflexivity. Qed.

Example flag_vocabulary :
  map (fun s => in_TRUE_VALUES (Str.lower s))
    ["1"; "On"; "T"; "TRUE"; "y"; "Yes"; "0"; "no"; "2"; "enabled"]
  = [true; true; true; true; true; true; false; false; false; false].
Proof. reflexivity. Qed.

Example environ_name_example :
  Str.upper ("swiftly" ++ "_" ++ "auth_url") = "SWIFTLY_AUTH_URL".
Proof. reflexivity. Qed.

Example path_join_examples :
  map (fun ab => path_join ab.1 ab.2)
    [("/tmp", "alice.swiftly"); ("/tmp/", "alice.swiftly"); ("/tmp", "/etc/x.swiftly")]
  = ["/tmp/alice.swiftly"; "/tmp/alice.swiftly"; "/etc/x.swiftly"].
Proof. reflexivity. Qed.

(** [swiftly bogus]: the unknown command is reported and the result
    is 1. *)
Example unknown_command_example :
  Examples.observe
    (__call__ Examples.os0 (Some ["-A"; "http://auth"; "bogus"])
       (CLI_init (Examples.cmds Examples.succeeds)
          (Examples.parsed [("auth_url", VStr "http://auth")] ["bogus"])))
  = (Ok (VInt 1),
     Some (StandardClient VNone (VStr "http://auth") VNone VNone VNone VNone
             VNone (VBool false) 5 false VNone),
     "ERROR unknown command 'bogus'" ++ nl, []).
Proof. vm_compute. reflexivity. Qed.

(** With the auth URL in the environment only and [retries] nowhere,
    the Standard client is built from the environment value, with five
    attempts, and the command runs. *)
Example environment_auth_url_example :
  Examples.observe
    (__call__ (Examples.with_environ Examples.os0 [("SWIFTLY_AUTH_URL", "http://env")])
       (Some ["get"; "c"])
       (CLI_init (Examples.cmds Examples.succeeds) (Examples.parsed [] ["get"; "c"])))
  = (Ok (VInt 0),
     Some (StandardClient VNone (VStr "http://env") VNone VNone VNone VNone
             VNone (VBool false) 5 false VNone),
     EmptyString, [("get", ["c"])]).
Proof. vm_compute. reflexivity. Qed.

(** [swiftly for ...] calls the [fordo] command. *)
Example for_alias_example :
  calls (__call__ Examples.os0 (Some ["-L"; "/srv/fake"; "for"; "x"])
           (CLI_init (Examples.cmds Examples.succeeds)
              (Examples.parsed [("local", VStr "/srv/fake")] ["for"; "x"]))).2
  = [("fordo", ["x"])].
Proof. vm_compute. reflexivity. Qed.

(** A configuration file whose second section cannot be interpolated
    keeps its first section; one that cannot be parsed gives nothing. *)
Example load_conf_examples :
  let good := ("swiftly", Some [("auth_url", "http://conf")]) in
  let bad := ("other", None) in
  load_conf (Examples.with_file Examples.os0 (ConfSections [good; bad])) "f"
    = {[ "swiftly" := {[ "auth_url" := "http://conf" ]} ]} /\
  load_conf (Examples.with_file Examples.os0 ConfUnparsable) "f" = ∅.
Proof. split; reflexivity. Qed.

Example rsplit_dot_examples :
  map rsplit_dot ["swiftly.cli.auth.CLIAuth"; "CLIAuth"; "a."; ".b"; "a..b"]
  = [Some ("swiftly.cli.auth", "CLIAuth"); None; Some ("a", EmptyString);
     Some (EmptyString, "b"); Some ("a.", "b")].
Proof. reflexivity. Qed.

Example epilog_string_examples :
  Epilog.split "," "a,,b," = ["a"; EmptyString; "b"; EmptyString] /\
  Epilog.split "," EmptyString = [EmptyString] /\
  Epilog.strip "  get [options] <path>  " = "get [options] <path>" /\
  Epilog.after_bracket "Usage: swiftly [main_options] get [options]"
    = Some " get [options]" /\
  Epilog.join ["a"; "b"; "c"] = "a b c".
Proof. repeat split; reflexivity. Qed.

(** ** More on the dispatcher *)

(** X1: a command token that names no registered command ([for]
    standing for [fordo]) makes the dispatcher write "ERROR unknown
    command", the [repr] of the token as it was typed and a newline to
    the error stream, and return 1; no command is called and the rest
    of the state is untouched. *)
Theorem unknown_command_reported (self : CLI) (arg0 : string) (rest : list string) :
  commands self !! (if String.eqb arg0 "for" then "fordo" else arg0) = None ->
  let result := _perform_command (arg0 :: rest) self in
  result.1 = Ok (VInt 1) /\
  stderr (io_manager (context result.2)) =
    stderr (io_manager (context self)) ++ "ERROR unknown command " ++ Repr.repr arg0 ++ nl /\
  calls result.2 = calls self /\
  client_manager (context result.2) = client_manager (context self) /\
  commands result.2 = commands self.
Proof.
  intros Hnone result. subst result. unfold _perform_command. run.
  rewrite Hnone. run. repeat split; reflexivity.
Qed.

Lemma unknown_command_reported_witness :
  let self := CLI_init (Examples.cmds Examples.succeeds) (Examples.parsed [] ["bogus"]) in
  (_perform_command ["bogus"; "x"] self).1 = Ok (VInt 1) /\
  stderr (io_manager (context (_perform_command ["bogus"; "x"] self).2)) =
    "ERROR unknown command 'bogus'" ++ nl.
Proof.
  destruct (unknown_command_reported
              (CLI_init (Examples.cmds Examples.succeeds) (Examples.parsed [] ["bogus"]))
              "bogus" ["x"] eq_refl) as (H1 & H2 & _).
  split; [exact H1 | exact H2].
Defined.

(** X2: a registered command that returns normally is called exactly
    once, on the arguments after the command token, and the dispatcher
    returns 0 and leaves the context as the command left it. *)
Theorem command_success (self : CLI) (arg0 : string) (rest : list string)
    (cmd : Command) (c' : CLIContext) :
  commands self !! (if String.eqb arg0 "for" then "fordo" else arg0) = Some cmd ->
  cmd rest (context self) = (None, c') ->
  let result := _perform_command (arg0 :: rest) self in
  result.1 = Ok (VInt 0) /\
  context result.2 = c' /\
  calls result.2 =
    (calls self ++ [(if String.eqb arg0 "for" then "fordo" else arg0, rest)])%list.
Proof.
  intros Hreg Hcmd result. subst result. unfold _perform_command. run.
  rewrite Hreg. unfold call_command. rewrite Hcmd. repeat split; reflexivity.
Qed.

Lemma command_success_witness :
  let self := CLI_init (Examples.cmds Examples.succeeds) (Examples.parsed [] ["get"]) in
  (_perform_command ["get"; "c"; "o"] self).1 = Ok (VInt 0) /\
  calls (_perform_command ["get"; "c"; "o"] self).2 = [("get", ["c"; "o"])].
Proof.
  destruct (command_success
              (CLI_init (Examples.cmds Examples.succeeds) (Examples.parsed [] ["get"]))
              "get" ["c"; "o"] Examples.succeeds init_context eq_refl eq_refl)
    as (H1 & _ & H3).
  split; [exact H1 | exact H3].
Defined.

(** X3: when [fordo] is registered, the token [for] is dispatched
    exactly as the token [fordo] is: same result, same state. *)
Theorem for_is_fordo (self : CLI) (rest : list string) :
  is_Some (commands self !! "fordo") ->
  _perform_command ("for" :: rest) self = _perform_command ("fordo" :: rest) self.
Proof.
  intros [cmd Hcmd]. unfold _perform_command. run.
  change (if String.eqb "for" "for" then "fordo" else "for") with "fordo".
  change (if String.eqb "fordo" "for" then "fordo" else "fordo") with "fordo".
  rewrite Hcmd. reflexivity.
Qed.

Lemma for_is_fordo_witness :
  let self := CLI_init (Examples.cmds Examples.succeeds) (Examples.parsed [] ["for"]) in
  _perform_command ["for"; "x"] self = _perform_command ["fordo"; "x"] self.
Proof.
  exact (for_is_fordo
           (CLI_init (Examples.cmds Examples.succeeds) (Examples.parsed [] ["for"]))
           ["x"] (ex_intro _ Examples.succeeds eq_refl)).
Defined.

(** X19: what a registered command raises that is no instance of
    [Exception] ([KeyboardInterrupt], [SystemExit], ...) is not handled
    by the dispatcher: it leaves [_perform_command] as it was raised,
    after the one call of the command; the dispatcher writes nothing
    and returns no code, whatever [text] and [code] it carries. *)
Theorem non_exception_propagates (self : CLI) (arg0 : string) (rest : list string)
    (cmd : Command) (err : PyErr) (c' : CLIContext) :
  commands self !! (if String.eqb arg0 "for" then "fordo" else arg0) = Some cmd ->
  cmd rest (context self) = (Some err, c') ->
  err_is_exception err = false ->
  let result := _perform_command (arg0 :: rest) self in
  result.1 = Raise err /\
  context result.2 = c' /\
  calls result.2 =
    (calls self ++ [(if String.eqb arg0 "for" then "fordo" else arg0, rest)])%list.
Proof.
  intros Hreg Hraise Hexc result. subst result.
  rewrite (perform_command_propagates _ _ _ _ _ _ Hreg Hraise Hexc).
  repeat split; reflexivity.
Qed.

Lemma non_exception_propagates_witness :
  let interrupt :=
    mkErr "KeyboardInterrupt" false None None "Traceback: KeyboardInterrupt" in
  let self := CLI_init (Examples.cmds (Examples.raises interrupt))
                (Examples.parsed [] ["get"]) in
  (_perform_command ["get"; "c"] self).1 = Raise interrupt /\
  context (_perform_command ["get"; "c"] self).2 = init_context.
Proof.
  destruct (non_exception_propagates
              (CLI_init (Examples.cmds (Examples.raises _)) (Examples.parsed [] ["get"]))
              "get" ["c"] _
              (mkErr "KeyboardInterrupt" false None None "Traceback: KeyboardInterrupt")
              init_context eq_refl eq_refl eq_refl) as (H1 & H2 & _).
  split; [exact H1 | exact H2].
Defined.

(** ** Invocations that stop before the options are resolved *)

(** X4: when the option parser met an error, or the version or the
    help was asked for, or no command is left, the invocation returns 1
    at once: the version is asked of the parser if it was asked for,
    else the help (neither after a parser error); the configuration
    file is not read, no client manager is constructed and no command
    is called.  What the parser itself writes is its own business. *)
Theorem early_exit (self : CLI) (os : OS) (args : option (list string)) :
  let original := match args with Some a => a | None => argv os end in
  let parse := parse_args (option_parser self) original in
  match parse with
  | None => True
  | Some (options, rest) =>
      truthy (getattr options "version") = true \/ rest = [] \/
      truthy (getattr options "help") = true
  end ->
  let result := __call__ os args self in
  result.1 = Ok (VInt 1) /\
  printed (option_parser result.2) =
    (printed (option_parser self) ++
     match parse with
     | None => []
     | Some (options, _) =>
         [if truthy (getattr options "version") then print_version else print_help]
     end)%list /\
  conf (context result.2) = conf (context self) /\
  client_manager (context result.2) = client_manager (context self) /\
  calls result.2 = calls self /\
  original_args (context result.2) = original.
Proof.
  intros original parse H result. subst result.
  unfold __call__, _parse_args, parse_main_options. run.
  fold original. fold parse. destruct parse as [[options rest]|].
  - destruct (truthy (getattr options "version")) eqn:Hv.
    + run. repeat split; reflexivity.
    + destruct H as [H|[->|H]]; [discriminate | |].
      * cbn [bool_decide decide_rel orb]. run.
        rewrite bool_decide_eq_true_2 by reflexivity. run.
        repeat split; reflexivity.
      * rewrite H, orb_true_r. run. repeat split; reflexivity.
  - run. repeat split; try reflexivity. now rewrite app_nil_r.
Qed.

Lemma early_exit_witness :
  let self :=
    CLI_init (Examples.cmds Examples.succeeds)
      (Examples.parsed [("version", VBool true); ("help", VBool true)] ["get"]) in
  (__call__ Examples.os0 (Some ["--version"; "-h"; "get"]) self).1 = Ok (VInt 1) /\
  printed (option_parser
             (__call__ Examples.os0 (Some ["--version"; "-h"; "get"]) self).2)
    = [print_version] /\
  calls (__call__ Examples.os0 (Some ["--version"; "-h"; "get"]) self).2 = [].
Proof.
  destruct (early_exit
              (CLI_init (Examples.cmds Examples.succeeds)
                 (Examples.parsed [("version", VBool true); ("help", VBool true)] ["get"]))
              Examples.os0 (Some ["--version"; "-h"; "get"])
              (or_introl eq_refl)) as (H1 & H2 & _ & _ & H5 & _).
  split; [exact H1 |]. split; [exact H2 | exact H5].
Defined.

(** ** More on the resolved options *)

Lemma flag_options_main (n : string) : n ∈ flag_options -> n ∈ main_options.
Proof.
  intros H. unfold flag_options in H.
  repeat (apply elem_of_cons in H as [->|H]; [repeat constructor |]).
  now apply elem_of_nil in H.
Qed.

Lemma int_options_main (n : string) : n ∈ int_options -> n ∈ main_options.
Proof.
  intros H. unfold int_options in H.
  repeat (apply elem_of_cons in H as [->|H]; [repeat constructor |]).
  now apply elem_of_nil in H.
Qed.

Lemma flag_options_existsb (n : string) :
  n ∈ flag_options -> existsb (String.eqb n) flag_options = true.
Proof.
  intros H. apply existsb_exists. exists n. split.
  - now apply list_elem_of_In.
  - apply String.eqb_refl.
Qed.

Lemma int_options_existsb (n : string) :
  n ∈ int_options ->
  existsb (String.eqb n) flag_options = false /\
  existsb (String.eqb n) int_options = true /\
  exists d, builtin_default n = VInt d.
Proof.
  intros H.
  apply elem_of_cons in H as [->|H]; [repeat split; now exists 4 |].
  apply elem_of_cons in H as [->|H]; [repeat split; now exists 1 |].
  now apply elem_of_nil in H.
Qed.

(** X5: the resolution leaves typed values.  A flag that the command
    line left unset or set to a boolean is a boolean afterwards, and an
    integer option that the command line left unset or gave as a string
    is an integer afterwards: never [None], never a string. *)
Theorem resolved_option_types (conf : gmap string (gmap string string)) (os : OS)
    (options options' : Values) :
  resolve_options conf os options = Ok options' ->
  (forall n, n ∈ flag_options ->
     getattr options n = VNone \/ (exists b, getattr options n = VBool b) ->
     exists b, getattr options' n = VBool b) /\
  (forall n, n ∈ int_options ->
     getattr options n = VNone \/ (exists s, getattr options n = VStr s) ->
     exists z, getattr options' n = VInt z).
Proof.
  intros Hok. split; intros n Hn Hcli.
  - pose proof (resolve_options_ok _ _ _ options' n Hok) as H.
    rewrite (resolve_main_options_cascade conf os options n) in H
      by (now apply flag_options_main).
    unfold final_value in H. rewrite (flag_options_existsb n Hn) in H.
    injection H as ->. unfold cascade.
    destruct Hcli as [->|[b ->]]; [|now exists b].
    destruct (environ os !! _); [eexists; reflexivity |].
    destruct (conf !! "swiftly" ≫= _); eexists; reflexivity.
  - pose proof (resolve_options_ok _ _ _ options' n Hok) as H.
    rewrite (resolve_main_options_cascade conf os options n) in H
      by (now apply int_options_main).
    destruct (int_options_existsb n Hn) as (Hf & Hi & d & Hd).
    unfold final_value in H. rewrite Hf, Hi, Hd in H.
    assert (forall s, match Str.to_int s with
                      | Some z => Ok (VInt z)
                      | None => Raise (ValueError
                          ("invalid literal for int() with base 10: " ++ Repr.repr s))
                      end = Ok (getattr options' n) ->
                      exists z, getattr options' n = VInt z) as Hstr.
    { intros s. destruct (Str.to_int s) as [z|]; [|discriminate].
      intros [= <-]. now exists z. }
    unfold cascade in H. destruct Hcli as [Hc|[s Hc]]; rewrite Hc in H.
    + destruct (environ os !! _) as [s|]; [now apply (Hstr s) |].
      destruct (conf !! "swiftly" ≫= _) as [s|]; [now apply (Hstr s) |].
      injection H as ->. now exists d.
    + now apply (Hstr s).
Qed.

Lemma resolved_option_types_witness :
  exists b z,
    getattr (resolved_of CascadeExample.os CascadeExample.options "f") "snet" = VBool b /\
    getattr (resolved_of CascadeExample.os CascadeExample.options "f") "retries" = VInt z.
Proof.
  assert (resolves CascadeExample.os CascadeExample.options "f" = true) as Hres
    by (vm_compute; reflexivity).
  apply resolved_of_ok in Hres.
  destruct (resolved_option_types _ _ _ _ Hres) as (Hflag & Hint).
  destruct (Hflag "snet" ltac:(repeat constructor)
              ltac:(left; vm_compute; reflexivity)) as [b Hb].
  destruct (Hint "retries" ltac:(repeat constructor)
              ltac:(left; vm_compute; reflexivity)) as [z Hz].
  exists b, z. split; assumption.
Defined.

Lemma lower_upper_char (c : ascii) :
  Str.lower_char (Str.upper_char c) = Str.lower_char c.
Proof. destruct c as [[] [] [] [] [] [] [] []]; reflexivity. Qed.

Lemma lower_lower_char (c : ascii) :
  Str.lower_char (Str.lower_char c) = Str.lower_char c.
Proof. destruct c as [[] [] [] [] [] [] [] []]; reflexivity. Qed.

Lemma lower_upper (s : string) : Str.lower (Str.upper s) = Str.lower s.
Proof.
  induction s as [|c s IH]; [reflexivity |].
  cbn [Str.lower Str.upper Str.map_chars]. rewrite lower_upper_char.
  f_equal. exact IH.
Qed.

Lemma lower_lower (s : string) : Str.lower (Str.lower s) = Str.lower s.
Proof.
  induction s as [|c s IH]; [reflexivity |].
  cbn [Str.lower Str.map_chars]. rewrite lower_lower_char.
  f_equal. exact IH.
Qed.

Lemma in_TRUE_VALUES_spec (s : string) :
  in_TRUE_VALUES s = true <-> s ∈ TRUE_VALUES.
Proof.
  unfold in_TRUE_VALUES. rewrite existsb_exists. split.
  - intros (x & Hin & Heq). apply String.eqb_eq in Heq as ->.
    now apply list_elem_of_In.
  - intros Hin. exists s. split; [now apply list_elem_of_In | apply String.eqb_refl].
Qed.

(** X6: the conversion of a flag given as a string does not look at
    the letter case: the string, its upper case and its lower case
    convert to the same boolean, which is true exactly when the lower
    case of the string is one of [TRUE_VALUES]. *)
Theorem flag_letter_case (options : Values) (n s : string) :
  getattr options n = VStr s ->
  getattr (coerce_flag (setattr options n (VStr (Str.upper s))) n) n =
    getattr (coerce_flag options n) n /\
  getattr (coerce_flag (setattr options n (VStr (Str.lower s))) n) n =
    getattr (coerce_flag options n) n /\
  (getattr (coerce_flag options n) n = VBool true <-> Str.lower s ∈ TRUE_VALUES) /\
  (getattr (coerce_flag options n) n = VBool false <-> Str.lower s ∉ TRUE_VALUES).
Proof.
  intros Hs. rewrite !coerce_flag_same, !getattr_setattr, Hs.
  cbn [flag_converted]. rewrite lower_upper, lower_lower.
  split; [reflexivity |]. split; [reflexivity |].
  rewrite <- in_TRUE_VALUES_spec.
  destruct (in_TRUE_VALUES (Str.lower s)); split; split; congruence.
Qed.

Lemma flag_letter_case_witness :
  getattr (coerce_flag (setattr (∅ : Values) "snet" (VStr "yEs")) "snet") "snet" = VBool true /\
  getattr (coerce_flag (setattr (setattr (∅ : Values) "snet" (VStr "yEs")) "snet"
                          (VStr (Str.upper "yEs"))) "snet") "snet"
    = getattr (coerce_flag (setattr (∅ : Values) "snet" (VStr "yEs")) "snet") "snet".
Proof.
  assert (getattr (setattr (∅ : Values) "snet" (VStr "yEs")) "snet" = VStr "yEs")
    as Hs by (vm_compute; reflexivity).
  destruct (flag_letter_case _ _ _ Hs) as (Hupper & _ & Htrue & _).
  split; [|exact Hupper].
  apply Htrue. vm_compute. repeat constructor.
Defined.

(** X7: an environment variable that is set to the empty string is a
    value of the cascade.  It hides what the configuration file holds;
    the option is then falsy; a flag resolves to false; and for
    [retries] and [concurrency] the resolution raises, whatever the
    configuration file says. *)
Theorem empty_environment_value (conf : gmap string (gmap string string)) (os : OS)
    (options : Values) (n : string) :
  n ∈ main_options ->
  getattr options n = VNone ->
  environ os !! ("SWIFTLY_" ++ Str.upper n) = Some EmptyString ->
  getattr (resolve_main_options conf os options) n = VStr EmptyString /\
  (n ∈ flag_options -> forall options',
     resolve_options conf os options = Ok options' ->
     getattr options' n = VBool false) /\
  (n ∈ int_options -> exists e, resolve_options conf os options = Raise e).
Proof.
  intros Hn Hcli Henv.
  assert (getattr (resolve_main_options conf os options) n = VStr EmptyString) as Hraw.
  { rewrite resolve_main_options_cascade by exact Hn.
    unfold cascade. now rewrite Hcli, Henv. }
  split; [exact Hraw |]. split.
  - intros Hflag options' Hok.
    pose proof (resolve_options_ok _ _ _ options' n Hok) as H.
    rewrite Hraw in H. unfold final_value in H.
    rewrite (flag_options_existsb n Hflag) in H. now injection H as ->.
  - intros Hint.
    destruct (resolve_options_malformed conf os options n EmptyString Hint Hraw eq_refl)
      as (bad & _ & Hraise).
    eexists. exact Hraise.
Qed.

Lemma empty_environment_value_witness :
  "retries" ∈ main_options /\
  exists e,
    resolve_options EmptyEnvironmentExample.conf EmptyEnvironmentExample.os ∅ = Raise e.
Proof.
  assert ("retries" ∈ main_options) as Hn by repeat constructor.
  split; [exact Hn |].
  exact (proj2 (proj2 (empty_environment_value EmptyEnvironmentExample.conf
                         EmptyEnvironmentExample.os ∅ "retries" Hn eq_refl eq_refl))
           ltac:(repeat constructor)).
Defined.

(** ** What the choice of the client leaves alone *)

Lemma select_client_frame (os : OS) (options : Values) (retries : Z)
    (args : list string) (s : CLI) :
  let s' := (select_client os options retries args s).2 in
  original_args (context s') = original_args (context s) /\
  original_main_args (context s') = original_main_args (context s) /\
  conf (context s') = conf (context s) /\
  eventlet (context s') = eventlet (context s) /\
  verbose (context s') = verbose (context s) /\
  verbosity (context s') = verbosity (context s) /\
  subprocess_module (io_manager (context s')) = subprocess_module (io_manager (context s)) /\
  commands s' = commands s /\
  calls s' = calls s.
Proof.
  unfold select_client, finish_parse.
  destruct (is_help args); [run; now repeat split |].
  destruct (truthy (getattr options "local")).
  { run. destruct (int (getattr options "concurrency")); now repeat split. }
  destruct (truthy (getattr options "direct")).
  { run. destruct (int (getattr options "concurrency")); now repeat split. }
  destruct (truthy (getattr options "auth_url")); run.
  - destruct (int (getattr options "concurrency")); now repeat split.
  - now repeat split.
Qed.

Lemma conf_option_other (os : OS) (parsed : Values) (n : string) :
  n <> "conf" -> getattr (conf_option os parsed) n = getattr parsed n.
Proof.
  intros Hn. unfold conf_option.
  destruct (is_None (getattr parsed "conf")); [|reflexivity].
  apply getattr_setattr_ne. congruence.
Qed.

(** X8: the Direct and the Standard client get [retries + 1] attempts
    and the value of [context.eventlet]; with [retries] on the command
    line, in the environment and in the configuration file nowhere,
    that is 5 attempts. *)
Theorem attempts_are_retries_plus_one (self : CLI) (os : OS)
    (args : option (list string)) (parsed : Values) (rest : list string)
    (path : string) (options : Values) :
  accepted self os args parsed rest path ->
  resolve_options (load_conf os path) os (conf_option os parsed) = Ok options ->
  is_help rest = false ->
  truthy (getattr options "local") = false ->
  truthy (getattr options "direct") = true \/ truthy (getattr options "auth_url") = true ->
  exists retries m,
    int (getattr options "retries") = Ok retries /\
    client_manager (context (_parse_args os args self).2) = Some m /\
    attempts_of m = Some (retries + 1) /\
    eventlet_of m = Some (choose_eventlet os options) /\
    (getattr parsed "retries" = VNone ->
     environ os !! "SWIFTLY_RETRIES" = None ->
     load_conf os path !! "swiftly" ≫= (fun sec => sec !! "retries") = None ->
     retries = 4).
Proof.
  intros Hacc Hres Hhelp Hlocal Hchoice.
  destruct (parse_args_resolved _ _ _ _ _ _ Hacc _ Hres)
    as (retries & concurrency & Hr & Hc & Hparse).
  assert (int (getattr (setattr options "retries" (VInt retries)) "concurrency")
          = Ok concurrency) as Hc' by (now read_options).
  assert (getattr parsed "retries" = VNone ->
          environ os !! "SWIFTLY_RETRIES" = None ->
          load_conf os path !! "swiftly" ≫= (fun sec => sec !! "retries") = None ->
          retries = 4) as Hdefault.
  { intros Hcli Henv Hfile.
    pose proof (resolve_options_ok _ _ _ options "retries" Hres) as H.
    rewrite resolve_main_options_cascade in H by repeat constructor.
    unfold cascade in H.
    rewrite conf_option_other, Hcli in H by discriminate.
    change ("SWIFTLY_" ++ Str.upper "retries") with "SWIFTLY_RETRIES" in H.
    rewrite Henv, Hfile in H. injection H as H. rewrite H in Hr.
    now injection Hr as <-. }
  rewrite Hparse. unfold select_client. rewrite Hhelp. read_options. rewrite Hlocal.
  destruct (truthy (getattr options "direct")) eqn:Hdirect.
  - run. rewrite (finish_parse_ok _ _ _ _ Hc'). project.
    eexists retries, _. split; [exact Hr |]. split; [reflexivity |].
    cbn [attempts_of eventlet_of]. rewrite configured_eventlet.
    split; [reflexivity |]. split; [reflexivity | exact Hdefault].
  - destruct Hchoice as [?|Hauth]; [discriminate |]. rewrite Hauth. run.
    rewrite (finish_parse_ok _ _ _ _ Hc'). project.
    eexists retries, _. split; [exact Hr |]. split; [reflexivity |].
    cbn [attempts_of eventlet_of]. rewrite configured_eventlet.
    split; [reflexivity |]. split; [reflexivity | exact Hdefault].
Qed.

Lemma attempts_are_retries_plus_one_witness :
  exists m,
    client_manager
      (context (_parse_args CacheExample.os (Some CacheExample.args)
                  CacheExample.self).2) = Some m /\
    attempts_of m = Some 5.
Proof.
  assert (accepted CacheExample.self CacheExample.os (Some CacheExample.args)
            (list_to_map CacheExample.parsed) ["get"; "c"] "~/.swiftly.conf")
    as Hacc.
  { unfold accepted.
    split; [reflexivity |]. split; [reflexivity |]. split; [reflexivity |].
    split; [discriminate | reflexivity]. }
  assert (resolves CacheExample.os (list_to_map CacheExample.parsed)
            "~/.swiftly.conf" = true) as Hres by (vm_compute; reflexivity).
  apply resolved_of_ok in Hres.
  destruct (attempts_are_retries_plus_one _ _ _ _ _ _ _ Hacc Hres eq_refl
              ltac:(vm_compute; reflexivity)
              ltac:(right; vm_compute; reflexivity))
    as (retries & m & _ & Hm & Ha & _ & Hdefault).
  exists m. split; [exact Hm |].
  rewrite Ha, Hdefault; [reflexivity | vm_compute; reflexivity ..].
Defined.

(** ** The context after the arguments are parsed *)

Lemma configured_fields (os : OS) (options : Values) (s : CLI) :
  let s' := configured os options s in
  original_args (context s') = original_args (context s) /\
  original_main_args (context s') = original_main_args (context s) /\
  conf (context s') = conf (context s) /\
  cdn (context s') = cdn (context s) /\
  concurrency (context s') = concurrency (context s) /\
  subprocess_module (io_manager (context s')) =
    Some (choose_subprocess os (choose_eventlet os options)).
Proof.
  unfold configured.
  destruct (truthy (getattr options "verbose")); now repeat split.
Qed.

Section AcceptedContext.

Variables (self : CLI) (os : OS) (args : option (list string)).
Variables (parsed : Values) (rest : list string) (path : string).
Hypothesis Haccepted : accepted self os args parsed rest path.

Let original := match args with Some a => a | None => argv os end.
Let after := context (_parse_args os args self).2.

(** Whether the options resolve or not. *)
Lemma parse_args_fields :
  original_args after = original /\
  original_main_args after = take (length original - length rest) original /\
  conf after = load_conf os path.
Proof.
  subst after.
  destruct (resolve_options (load_conf os path) os (conf_option os parsed))
    as [options|e] eqn:Hres.
  - destruct (parse_args_resolved _ _ _ _ _ _ Haccepted _ Hres)
      as (retries & concurrency & _ & _ & ->).
    destruct (select_client_frame os (setattr options "retries" (VInt retries))
                retries rest
                (configured os options (parsed_state self os args rest path)))
      as (H1 & H2 & H3 & _).
    destruct (configured_fields os options (parsed_state self os args rest path))
      as (G1 & G2 & G3 & _).
    rewrite H1, H2, H3, G1, G2, G3. now repeat split.
  - rewrite (parse_args_malformed _ _ _ _ _ _ Haccepted _ Hres). now repeat split.
Qed.

End AcceptedContext.

(** X9: [context.original_main_args] is what comes before the command
    in the original arguments: when the parser's remaining arguments
    are the end of the original ones, the main arguments followed by
    the remaining ones are the original arguments. *)
Theorem main_args_split (self : CLI) (os : OS) (args : option (list string))
    (parsed : Values) (rest : list string) (path : string) (main : list string) :
  accepted self os args parsed rest path ->
  match args with Some a => a | None => argv os end = (main ++ rest)%list ->
  original_main_args (context (_parse_args os args self).2) = main /\
  original_args (context (_parse_args os args self).2) = (main ++ rest)%list.
Proof.
  intros Hacc Horig.
  destruct (parse_args_fields _ _ _ _ _ _ Hacc) as (H1 & H2 & _).
  rewrite H1, H2, Horig. split; [|reflexivity].
  rewrite length_app, Nat.add_sub. apply take_app_length.
Qed.

Lemma main_args_split_witness :
  original_main_args
    (context (_parse_args CacheExample.os (Some CacheExample.args)
                CacheExample.self).2) = ["-A"; "http://auth"; "-C"].
Proof.
  assert (accepted CacheExample.self CacheExample.os (Some CacheExample.args)
            (list_to_map CacheExample.parsed) ["get"; "c"] "~/.swiftly.conf")
    as Hacc.
  { unfold accepted.
    split; [reflexivity |]. split; [reflexivity |]. split; [reflexivity |].
    split; [discriminate | reflexivity]. }
  exact (proj1 (main_args_split _ _ _ _ _ _ ["-A"; "http://auth"; "-C"] Hacc eq_refl)).
Defined.

(** X10: the configuration file is looked for at the path of the
    [--conf] option when it was supplied, else at the value of the
    environment variable SWIFTLY_CONF, else at [~/.swiftly.conf]; and
    [context.conf] is what that file gives, whether the options then
    resolve or not. *)
Theorem conf_file_choice (self : CLI) (os : OS) (args : option (list string))
    (parsed : Values) (rest : list string) (path : string) :
  accepted self os args parsed rest path ->
  path = match getattr parsed "conf" with
         | VStr p => p
         | _ => default "~/.swiftly.conf" (environ os !! "SWIFTLY_CONF")
         end /\
  conf (context (_parse_args os args self).2) = load_conf os path.
Proof.
  intros Hacc. split; [|now apply (parse_args_fields _ _ _ _ _ _ Hacc)].
  destruct Hacc as (_ & _ & _ & _ & Hpath).
  unfold conf_option, dict_get in Hpath.
  destruct (getattr parsed "conf") as [|b|z|p] eqn:Hconf; cbn [is_None] in Hpath.
  - rewrite getattr_setattr in Hpath.
    destruct (environ os !! "SWIFTLY_CONF"); now injection Hpath as <-.
  - rewrite Hconf in Hpath. discriminate.
  - rewrite Hconf in Hpath. discriminate.
  - rewrite Hconf in Hpath. now injection Hpath as <-.
Qed.

Lemma conf_file_choice_witness :
  accepted ConfExample.self ConfExample.os (Some ["get"; "c"]) ∅ ["get"; "c"]
    "/etc/swiftly.conf" /\
  conf (context (_parse_args ConfExample.os (Some ["get"; "c"]) ConfExample.self).2)
  = load_conf ConfExample.os "/etc/swiftly.conf".
Proof.
  assert (accepted ConfExample.self ConfExample.os (Some ["get"; "c"]) ∅ ["get"; "c"]
            "/etc/swiftly.conf") as Hacc.
  { unfold accepted.
    split; [reflexivity |]. split; [reflexivity |]. split; [reflexivity |].
    split; [discriminate | reflexivity]. }
  split; [exact Hacc |].
  exact (proj2 (conf_file_choice _ _ _ _ _ _ Hacc)).
Defined.

Example conf_file_example :
  Examples.observe (__call__ ConfExample.os (Some ["get"; "c"]) ConfExample.self)
  = (Ok (VInt 0),
     Some (StandardClient VNone (VStr "http://conf") VNone VNone VNone VNone
             VNone (VBool false) 5 false VNone),
     EmptyString, [("get", ["c"])]).
Proof. vm_compute. reflexivity. Qed.

(** ** Eventlet *)

(** X11: after the options are resolved, [context.eventlet] is false
    and the plain [subprocess] module is installed whenever
    [no_eventlet] is truthy, even with [eventlet] truthy too; with
    [eventlet] truthy alone it is true whether Eventlet can be imported
    or not, and only the subprocess module falls back; with neither it
    is true exactly when Eventlet is importable and its version string
    is not below "0.11.0" in the order of strings. *)
Theorem eventlet_choice (self : CLI) (os : OS) (args : option (list string))
    (parsed : Values) (rest : list string) (path : string) (options : Values) :
  accepted self os args parsed rest path ->
  resolve_options (load_conf os path) os (conf_option os parsed) = Ok options ->
  let after := context (_parse_args os args self).2 in
  let yes := truthy (getattr options "eventlet") in
  let no := truthy (getattr options "no_eventlet") in
  (no = true ->
   eventlet after = Some false /\
   subprocess_module (io_manager after) = Some subprocess) /\
  (no = false -> yes = true ->
   eventlet after = Some true /\
   subprocess_module (io_manager after) =
     Some (if has_green_subprocess os then eventlet_green_subprocess else subprocess)) /\
  (no = false -> yes = false ->
   eventlet after =
     Some (match eventlet_version os with
           | Some version => String.leb "0.11.0" version
           | None => false
           end)).
Proof.
  intros Hacc Hres after yes no.
  destruct (parse_args_resolved _ _ _ _ _ _ Hacc _ Hres)
    as (retries & concurrency & _ & _ & Hparse).
  destruct (select_client_frame os (setattr options "retries" (VInt retries))
              retries rest
              (configured os options (parsed_state self os args rest path)))
    as (_ & _ & _ & He & _ & _ & Hs & _).
  destruct (configured_fields os options (parsed_state self os args rest path))
    as (_ & _ & _ & _ & _ & Gs).
  assert (eventlet after = Some (choose_eventlet os options)) as ->
    by (subst after; rewrite Hparse, He; apply configured_eventlet).
  assert (subprocess_module (io_manager after) =
          Some (choose_subprocess os (choose_eventlet os options))) as ->
    by (subst after; rewrite Hparse, Hs; exact Gs).
  unfold choose_subprocess, choose_eventlet. fold yes. fold no.
  split; [|split].
  - intros ->. destruct yes; split; reflexivity.
  - intros -> ->. split; [reflexivity |].
    cbn [andb]. destruct (has_green_subprocess os); reflexivity.
  - intros -> ->. reflexivity.
Qed.

Lemma eventlet_choice_witness :
  accepted EventletExample.self EventletExample.os (Some EventletExample.args)
    (list_to_map EventletExample.parsed) ["get"; "c"] "~/.swiftly.conf" /\
  eventlet (context (_parse_args EventletExample.os (Some EventletExample.args)
                       EventletExample.self).2) = Some false /\
  subprocess_module
    (io_manager (context (_parse_args EventletExample.os (Some EventletExample.args)
                            EventletExample.self).2)) = Some subprocess.
Proof.
  assert (accepted EventletExample.self EventletExample.os (Some EventletExample.args)
            (list_to_map EventletExample.parsed) ["get"; "c"] "~/.swiftly.conf")
    as Hacc.
  { unfold accepted.
    split; [reflexivity |]. split; [reflexivity |]. split; [reflexivity |].
    split; [discriminate | reflexivity]. }
  assert (resolves EventletExample.os (list_to_map EventletExample.parsed)
            "~/.swiftly.conf" = true) as Hres by (vm_compute; reflexivity).
  apply resolved_of_ok in Hres.
  split; [exact Hacc |].
  exact (proj1 (eventlet_choice _ _ _ _ _ _ _ Hacc Hres)
           ltac:(vm_compute; reflexivity)).
Defined.

Example old_eventlet_example :
  eventlet (context (_parse_args EventletExample.os_old (Some ["-L"; "/srv/fake"; "get"; "c"])
                       EventletExample.self_plain).2) = Some true.
Proof. vm_compute. reflexivity. Qed.

(** ** The CDN flag and the concurrency *)



(** ** The configuration store *)

Section FoldInsert.

Context {V : Type}.

Lemma foldl_insert_notin (l : list (string * V)) (d : gmap string V) (k : string) :
  k ∉ l.*1 ->
  foldl (fun d kv => <[kv.1 := kv.2]> d) d l !! k = d !! k.
Proof.
  revert d. induction l as [|[k' v'] l IH]; intros d Hk; [reflexivity |].
  cbn [foldl]. rewrite fmap_cons in Hk. apply not_elem_of_cons in Hk as [Hne Hk].
  rewrite IH by exact Hk. cbn [fst snd] in *. now rewrite lookup_insert_ne.
Qed.

Lemma foldl_insert_in (l : list (string * V)) (d : gmap string V) (k : string) (v : V) :
  NoDup l.*1 -> (k, v) ∈ l ->
  foldl (fun d kv => <[kv.1 := kv.2]> d) d l !! k = Some v.
Proof.
  revert d. induction l as [|[k' v'] l IH]; intros d Hnd Hin.
  - now apply elem_of_nil in Hin.
  - rewrite fmap_cons in Hnd. apply NoDup_cons in Hnd as [Hk' Hnd].
    cbn [foldl fst snd] in *. apply elem_of_cons in Hin as [[= -> ->]|Hin].
    + rewrite foldl_insert_notin by exact Hk'. apply lookup_insert_eq.
    + now apply IH.
Qed.

End FoldInsert.

(** X13: when [items()] raises on a section of the configuration
    file, the sections before it are in the store with their items, and
    nothing else is: the failing section and every section after it,
    readable or not, are missing. *)
Theorem partial_store (os : OS) (path : string)
    (good : list (string * list (string * string))) (bad : string)
    (later : list (string * option (list (string * string)))) :
  files os (expanduser os path) =
    ConfSections (((fun p => (p.1, Some p.2)) <$> good) ++ (bad, None) :: later) ->
  NoDup good.*1 ->
  (forall name items, (name, items) ∈ good ->
     load_conf os path !! name = Some (dict_of_items items)) /\
  (forall name, name ∉ good.*1 -> load_conf os path !! name = None).
Proof.
  intros Hfile Hnd. unfold load_conf. rewrite Hfile, copy_sections_readable.
  cbn [copy_sections]. split.
  - intros name items Hin. apply foldl_insert_in.
    + now rewrite <- list_fmap_compose.
    + apply (list_elem_of_fmap_2 (fun p => (p.1, dict_of_items p.2)) _ _ Hin).
  - intros name Hname. rewrite foldl_insert_notin; [apply lookup_empty |].
    now rewrite <- list_fmap_compose.
Qed.

Lemma partial_store_witness :
  load_conf PartialConfExample.os "f" !! "first" = Some (dict_of_items [("a", "1")]) /\
  load_conf PartialConfExample.os "f" !! "swiftly" = None.
Proof.
  destruct (partial_store PartialConfExample.os "f" [("first", [("a", "1")])] "second"
              [("swiftly", Some [("auth_url", "http://conf")])] eq_refl
              ltac:(repeat constructor; set_solver)) as (Hkept & Hlost).
  split.
  - apply Hkept. repeat constructor.
  - apply Hlost. cbn. intros [H|H]%elem_of_cons; [discriminate |].
    now apply elem_of_nil in H.
Defined.

(** X14: a value of the section [swiftly] of a readable configuration
    file reaches the option of the same name when neither the command
    line nor the environment gives one. *)
Theorem conf_file_value_resolved (os : OS) (path : string)
    (sections : list (string * list (string * string)))
    (items : list (string * string)) (options : Values) (n v : string) :
  files os (expanduser os path) = ConfSections ((fun p => (p.1, Some p.2)) <$> sections) ->
  NoDup sections.*1 ->
  ("swiftly", items) ∈ sections ->
  NoDup items.*1 ->
  (n, v) ∈ items ->
  n ∈ main_options ->
  getattr options n = VNone ->
  environ os !! ("SWIFTLY_" ++ Str.upper n) = None ->
  getattr (resolve_main_options (load_conf os path) os options) n = VStr v.
Proof.
  intros Hfile Hnd Hsec Hndi Hitem Hn Hcli Henv.
  rewrite resolve_main_options_cascade by exact Hn.
  unfold cascade. rewrite Hcli, Henv.
  assert (load_conf os path !! "swiftly" = Some (dict_of_items items)) as ->.
  { unfold load_conf. rewrite Hfile.
    rewrite <- (app_nil_r (_ <$> sections)), copy_sections_readable.
    cbn [copy_sections]. apply foldl_insert_in.
    - now rewrite <- list_fmap_compose.
    - apply (list_elem_of_fmap_2 (fun p => (p.1, dict_of_items p.2)) _ _ Hsec). }
  cbn. unfold dict_of_items. now rewrite (foldl_insert_in items ∅ n v Hndi Hitem).
Qed.

Lemma conf_file_value_resolved_witness :
  getattr (resolve_main_options (load_conf ConfExample.os "/etc/swiftly.conf")
             ConfExample.os ∅) "auth_url" = VStr "http://conf".
Proof.
  exact (conf_file_value_resolved ConfExample.os "/etc/swiftly.conf"
           [("swiftly", [("auth_url", "http://conf")])]
           [("auth_url", "http://conf")] ∅ "auth_url" "http://conf"
           eq_refl ltac:(repeat constructor; set_solver) ltac:(repeat constructor)
           ltac:(repeat constructor; set_solver) ltac:(repeat constructor)
           ltac:(repeat constructor) eq_refl eq_refl).
Defined.

(** ** The constructor: the registry of commands *)

Lemma contains_app (c : ascii) (a b : string) :
  Repr.contains c (a ++ b) = Repr.contains c a || Repr.contains c b.
Proof.
  induction a as [|x a IH]; [reflexivity |].
  change (Repr.contains c (String x (a ++ b)) =
          Repr.contains c (String x a) || Repr.contains c b).
  cbn [Repr.contains]. rewrite IH. now rewrite orb_assoc.
Qed.

Lemma rsplit_dot_none (s : string) :
  rsplit_dot s = None <-> Repr.contains "." s = false.
Proof.
  induction s as [|c s IH]; [split; reflexivity |].
  cbn [rsplit_dot Repr.contains]. rewrite Ascii.eqb_sym.
  destruct (rsplit_dot s) as [[m cls]|].
  - split; [discriminate |]. intros H. apply orb_false_elim in H as [_ H].
    apply IH in H. discriminate.
  - destruct (Ascii.eqb "." c); cbn [orb]; [split; discriminate |].
    split; intros _; [now apply IH | reflexivity].
Qed.

(** X15: [command.rsplit('.', 1)] cuts a class path at its last dot:
    the two parts joined by a dot are the path again and the second
    part has no dot; and only a path of this form is cut this way.  A
    path is left uncut exactly when it has no dot. *)
Theorem rsplit_dot_last_dot (s m cls : string) :
  (rsplit_dot s = Some (m, cls) <->
   s = m ++ "." ++ cls /\ Repr.contains "." cls = false) /\
  (rsplit_dot s = None <-> Repr.contains "." s = false).
Proof.
  split; [|apply rsplit_dot_none]. split.
  - revert m. induction s as [|c s IH]; intros m; [discriminate |].
    cbn [rsplit_dot]. destruct (rsplit_dot s) as [[m' cls']|] eqn:E.
    + intros [= <- <-]. destruct (IH m' eq_refl) as [-> Hcls].
      split; [reflexivity | exact Hcls].
    + destruct (Ascii.eqb_spec c "."); [|discriminate].
      intros [= <- <-]. subst c. split; [reflexivity |].
      now apply rsplit_dot_none.
  - intros [-> Hcls]. induction m as [|c m IH].
    + change (rsplit_dot (String "." cls) = Some (EmptyString, cls)).
      cbn [rsplit_dot]. apply rsplit_dot_none in Hcls. now rewrite Hcls.
    + change (rsplit_dot (String c (m ++ "." ++ cls)) = Some (String c m, cls)).
      cbn [rsplit_dot]. now rewrite IH.
Qed.

Section Registry.

Variable import : Importer.

Lemma register_all (paths : list string) (instances : list (string * Command))
    (c : gmap string Command) :
  Forall2 (imports import) paths instances ->
  for_each paths (register_command import) c =
  Ok (foldl (fun d kv => <[kv.1 := kv.2]> d) c instances).
Proof.
  intros H. revert c.
  induction H as [|path [name inst] paths instances (m & cls & Hs & Hi) _ IH];
    intros c; [reflexivity |].
  cbn [for_each foldl fst snd]. unfold register_command. rewrite Hs, Hi. apply IH.
Qed.

(** X16: when every class path has a dot and imports, the constructor
    registers each instance under its own name: with instance names
    that differ, a name is looked up to its instance, and a name that
    no instance has is not registered. *)
Theorem commands_registered (paths : list string) (instances : list (string * Command)) :
  Forall2 (imports import) paths instances ->
  NoDup instances.*1 ->
  exists registry,
    build_commands import (Some paths) = Ok registry /\
    (forall name inst, (name, inst) ∈ instances -> registry !! name = Some inst) /\
    (forall name, name ∉ instances.*1 -> registry !! name = None).
Proof.
  intros Hall Hnd. eexists. split; [apply (register_all _ _ ∅ Hall) |]. split.
  - intros name inst Hin. now apply foldl_insert_in.
  - intros name Hname. rewrite foldl_insert_notin by exact Hname. apply lookup_empty.
Qed.

(** X17: the constructor stops at the first class path that has no dot
    (the unpacking of [rsplit]'s result is a [ValueError]) or whose
    import raises, with that error; the paths after it are not looked
    at. *)
Theorem commands_not_registered (before after : list string)
    (instances : list (string * Command)) (path : string) (e : PyErr) :
  Forall2 (imports import) before instances ->
  (rsplit_dot path = None /\ e = ValueError "need more than 1 value to unpack") \/
  (exists modname cls, rsplit_dot path = Some (modname, cls) /\
                       import modname cls = Raise e) ->
  build_commands import (Some (before ++ path :: after)%list) = Raise e.
Proof.
  intros Hall Hbad. unfold build_commands. generalize (∅ : gmap string Command).
  induction Hall as [|p [name inst] ps instances (m & cls & Hs & Hi) _ IH]; intros c.
  - cbn [app for_each]. unfold register_command.
    destruct Hbad as [[-> ->]|(m & cls & -> & ->)]; reflexivity.
  - cbn [app for_each]. unfold register_command at 1. rewrite Hs, Hi. apply IH.
Qed.

End Registry.

Lemma commands_registered_witness :
  exists registry,
    build_commands RegistryExample.import None = Ok registry /\
    registry !! "CLIGet" = Some Examples.succeeds /\
    registry !! "bogus" = None.
Proof.
  assert (Forall2 (imports RegistryExample.import) COMMANDS RegistryExample.instances)
    as Hall.
  { repeat (constructor; [eexists _, _; split; reflexivity |]). constructor. }
  assert (NoDup RegistryExample.instances.*1) as Hnd
    by (apply (bool_decide_unpack _); vm_compute; reflexivity).
  destruct (commands_registered RegistryExample.import COMMANDS
              RegistryExample.instances Hall Hnd) as (registry & Hok & Hin & Hout).
  exists registry. split; [exact Hok |]. split.
  - apply Hin. unfold RegistryExample.instances. cbn [fmap list_fmap].
    repeat constructor.
  - apply Hout. apply (bool_decide_unpack _). vm_compute. reflexivity.
Defined.

Lemma commands_not_registered_witness :
  build_commands RegistryExample.import
    (Some ["swiftly.cli.get.CLIGet"; "CLIPut"; "swiftly.cli.head.CLIHead"])
  = Raise (ValueError "need more than 1 value to unpack") /\
  build_commands RegistryExample.import
    (Some ["swiftly.cli.get.CLIGet"; "swiftly.cli.put.Missing"])
  = Raise (builtin_error "AttributeError" "'module' object has no attribute 'Missing'").
Proof.
  assert (Forall2 (imports RegistryExample.import) ["swiftly.cli.get.CLIGet"]
            [("CLIGet", Examples.succeeds)]) as Hall.
  { constructor; [eexists _, _; split; reflexivity | constructor]. }
  split.
  - exact (commands_not_registered RegistryExample.import
             ["swiftly.cli.get.CLIGet"] ["swiftly.cli.head.CLIHead"]
             [("CLIGet", Examples.succeeds)] "CLIPut" _ Hall
             (or_introl (conj eq_refl eq_refl))).
  - exact (commands_not_registered RegistryExample.import
             ["swiftly.cli.get.CLIGet"] []
             [("CLIGet", Examples.succeeds)] "swiftly.cli.put.Missing" _ Hall
             (or_intror (ex_intro _ "swiftly.cli.put"
                           (ex_intro _ "Missing" (conj eq_refl eq_refl))))).
Defined.

(** ** The constructor: the help text *)









Example epilog_entry_example :
  let fill := fun text (width : nat) initial_indent (_ : string) => initial_indent ++ text in
  let usage :=
    "Usage: swiftly [main_options] get [options] [path]" ++ nl ++ nl
    ++ "For help on main_options run swiftly with no args." ++ nl ++ nl
    ++ "Outputs the contents of the path." ++ nl ++ "Lists with no path." ++ nl ++ nl
    ++ "Options:" ++ nl in
  Epilog.entry fill usage
  = Ok ("  get [options] [path]  "
        ++ "Outputs the contents of the path. Lists with no path." ++ nl) /\
  Epilog.entry fill ("Usage: x [o] get" ++ nl ++ "two") =
    Raise (builtin_error "IndexError" "pop from empty list") /\
  Epilog.entry fill "no bracket" =
    Raise (builtin_error "IndexError" "list index out of range").
Proof. repeat split; reflexivity. Qed.
